(** * LiquidCrystal_SR3W: an HD44780 LCD behind a 3-wire latching shift register

    A shallow embedding of [LiquidCrystal_SR3W.cpp].  The driver object is a
    record of its member variables, every method is a computation in a small
    state-and-trace monad, and the trace records, in program order, each entry
    into [write4bits] and [loadSR] together with the calls made to the
    platform's fast-I/O layer.

    [uint8_t] values are integers of [Z]; the conversions to [uint8_t] that the
    C++ code performs implicitly (assignments, compound assignments and
    argument passing of [int]-typed expressions) are written out as [u8]. *)

From Stdlib Require Import ZArith List Bool Lia.
Import ListNotations.

Local Open Scope Z_scope.

(** ** Machine integers *)

(** Conversion of an [int] expression to [uint8_t]. *)
Definition u8 (x : Z) : Z := x mod 256.

Definition is_u8 (x : Z) : Prop := 0 <= x < 256.

(** ** Types of the collaborating headers *)

(** [t_backlighPol] of LCD.h: the two backlight polarities the code names. *)
Inductive t_backlighPol : Set := POSITIVE | NEGATIVE.

Definition t_backlighPol_eqb (a b : t_backlighPol) : bool :=
  match a, b with
  | POSITIVE, POSITIVE | NEGATIVE, NEGATIVE => true
  | _, _ => false
  end.

(** Bit order handed to the shift-out primitive, and the logic levels of a
    digital line. *)
Inductive bit_order : Set := LSBFIRST | MSBFIRST.
Inductive level : Set := LOW | HIGH.

(** ** The driver object *)

Record LiquidCrystal_SR3W : Set := mkSR3W {
  _data : Z;
  _clk : Z;
  _strobe : Z;
  _data_reg : Z;
  _clk_reg : Z;
  _strobe_reg : Z;
  _backlightPinMask : Z;
  _backlightStsMask : Z;
  _polarity : t_backlighPol;
  _En : Z;
  _Rw : Z;
  _Rs : Z;
  _data_pins : list Z;
  _displayfunction : Z
}.

(** ** Observable events *)

Inductive event : Set :=
| Call_write4bits (value mode : Z)
| Call_loadSR (value : Z)
| fio_pinToOutputRegister_ev (pin : Z)
| fio_shiftOut (dataReg dataBit clockReg clockBit value : Z) (order : bit_order)
| ATOMIC_BLOCK_enter
| ATOMIC_BLOCK_leave
| fio_digitalWrite_HIGH (reg bit : Z)
| fio_digitalWrite_SWITCHTO (reg bit : Z) (l : level)
| waitUsec (usec : Z).

Definition trace : Set := list event.

(** ** The state-and-trace monad *)

Definition M (A : Type) : Type :=
  LiquidCrystal_SR3W -> A * LiquidCrystal_SR3W * trace.

Definition ret {A} (a : A) : M A := fun s => (a, s, []).

Definition bind {A B} (m : M A) (k : A -> M B) : M B :=
  fun s =>
    let '(a, s1, t1) := m s in
    let '(b, s2, t2) := k a s1 in
    (b, s2, t1 ++ t2).

Definition get : M LiquidCrystal_SR3W := fun s => (s, s, []).
Definition put (s' : LiquidCrystal_SR3W) : M unit := fun _ => (tt, s', []).
Definition emit (e : event) : M unit := fun s => (tt, s, [e]).

Notation "x <- m ;; k" := (bind m (fun x => k))
  (at level 61, m at next level, right associativity).
Notation "m ;; k" := (bind m (fun _ => k))
  (at level 61, right associativity).

Definition result {A} (r : A * LiquidCrystal_SR3W * trace) : A := fst (fst r).
Definition state_of {A} (r : A * LiquidCrystal_SR3W * trace) : LiquidCrystal_SR3W :=
  snd (fst r).
Definition trace_of {A} (r : A * LiquidCrystal_SR3W * trace) : trace := snd r.

Definition set_backlightPinMask (v : Z) (s : LiquidCrystal_SR3W) : LiquidCrystal_SR3W :=
  {| _data := _data s; _clk := _clk s; _strobe := _strobe s;
     _data_reg := _data_reg s; _clk_reg := _clk_reg s; _strobe_reg := _strobe_reg s;
     _backlightPinMask := v;
     _backlightStsMask := _backlightStsMask s;
     _polarity := _polarity s;
     _En := _En s; _Rw := _Rw s; _Rs := _Rs s;
     _data_pins := _data_pins s;
     _displayfunction := _displayfunction s |}.

Definition set_backlightStsMask (v : Z) (s : LiquidCrystal_SR3W) : LiquidCrystal_SR3W :=
  {| _data := _data s; _clk := _clk s; _strobe := _strobe s;
     _data_reg := _data_reg s; _clk_reg := _clk_reg s; _strobe_reg := _strobe_reg s;
     _backlightPinMask := _backlightPinMask s;
     _backlightStsMask := v;
     _polarity := _polarity s;
     _En := _En s; _Rw := _Rw s; _Rs := _Rs s;
     _data_pins := _data_pins s;
     _displayfunction := _displayfunction s |}.

Definition set_polarity (p : t_backlighPol) (s : LiquidCrystal_SR3W) : LiquidCrystal_SR3W :=
  {| _data := _data s; _clk := _clk s; _strobe := _strobe s;
     _data_reg := _data_reg s; _clk_reg := _clk_reg s; _strobe_reg := _strobe_reg s;
     _backlightPinMask := _backlightPinMask s;
     _backlightStsMask := _backlightStsMask s;
     _polarity := p;
     _En := _En s; _Rw := _Rw s; _Rs := _Rs s;
     _data_pins := _data_pins s;
     _displayfunction := _displayfunction s |}.

Definition modify (f : LiquidCrystal_SR3W -> LiquidCrystal_SR3W) : M unit :=
  fun s => (tt, f s, []).

(** ** Constants defined by the source file itself *)

Definition LCD_NOBACKLIGHT : Z := 0x00.
Definition LCD_BACKLIGHT : Z := 0xFF.

Definition EN : Z := 4.
Definition RW : Z := 5.
Definition RS : Z := 6.
Definition D4 : Z := 0.
Definition D5 : Z := 1.
Definition D6 : Z := 2.
Definition D7 : Z := 3.

(** ** The methods *)

Section Driver.

(** Constants of LCD.h and the pin-resolution functions of FastIO.h, which
    the source includes but does not define: the [send] mode tags, the
    function-set flags, and the mapping of a pin number to its bit and to
    its output register. *)
Variables COMMAND DATA FOUR_BITS : Z.
Variables LCD_4BITMODE LCD_1LINE LCD_5x10DOTS : Z.
Variables fio_pinToBit fio_pinToOutputRegister : Z -> Z.

(** [loadSR], lines 257-270. *)
Definition loadSR (value : Z) : M unit :=
  emit (Call_loadSR value) ;;
  s <- get ;;
  emit (fio_shiftOut (_data_reg s) (_data s) (_clk_reg s) (_clk s) value MSBFIRST) ;;
  emit ATOMIC_BLOCK_enter ;;
  emit (fio_digitalWrite_HIGH (_strobe_reg s) (_strobe s)) ;;
  emit (waitUsec 1) ;;
  emit (fio_digitalWrite_SWITCHTO (_strobe_reg s) (_strobe s) LOW) ;;
  emit ATOMIC_BLOCK_leave ;;
  emit (waitUsec 40).

(** The [for] loop of [write4bits], lines 235-242: [n] iterations remain,
    [i] is the loop index. *)
Fixpoint map_pins (n : nat) (i : nat) (value pinMapValue : Z) (pins : list Z) : Z :=
  match n with
  | O => pinMapValue
  | S n' =>
      let pinMapValue' :=
        if Z.land value 0x1 =? 1
        then u8 (Z.lor pinMapValue (nth i pins 0))
        else pinMapValue in
      map_pins n' (S i) (Z.shiftr value 1) pinMapValue' pins
  end.

(** [write4bits], lines 229-254. *)
Definition write4bits (value mode : Z) : M unit :=
  emit (Call_write4bits value mode) ;;
  s <- get ;;
  let pinMapValue := map_pins 4 0 value 0 (_data_pins s) in
  let mode := if mode =? DATA then _Rs s else mode in
  let pinMapValue := u8 (Z.lor pinMapValue (Z.lor mode (_backlightStsMask s))) in
  loadSR (u8 (Z.lor pinMapValue (_En s))) ;;
  loadSR (u8 (Z.land pinMapValue (Z.lnot (_En s)))).

(** [send], lines 149-164. *)
Definition send (value mode : Z) : M unit :=
  if mode =? FOUR_BITS
  then write4bits (u8 (Z.land value 0x0F)) COMMAND
  else
    write4bits (u8 (Z.shiftr value 4)) mode ;;
    write4bits (u8 (Z.land value 0x0F)) mode.

(** [setBacklightPin], lines 167-171. *)
Definition setBacklightPin (value : Z) (pol : t_backlighPol) : M unit :=
  modify (set_backlightPinMask (u8 (Z.shiftl 1 value))) ;;
  modify (set_polarity pol).

(** [setBacklight], lines 173-192. *)
Definition setBacklight (value : Z) : M unit :=
  s <- get ;;
  if negb (_backlightPinMask s =? 0x0)
  then
    (if (t_backlighPol_eqb (_polarity s) POSITIVE && (value >? 0))
        || (t_backlighPol_eqb (_polarity s) NEGATIVE && (value =? 0))
     then modify (set_backlightStsMask (u8 (Z.land (_backlightPinMask s) LCD_BACKLIGHT)))
     else modify (set_backlightStsMask (u8 (Z.land (_backlightPinMask s) LCD_NOBACKLIGHT)))) ;;
    s' <- get ;;
    loadSR (_backlightStsMask s')
  else ret tt.

(** [init], lines 198-227.  Every member of the object is assigned; the
    three [fio_pinToOutputRegister] calls are recorded because the platform
    may configure the pin there.  [1 << x] is computed in [int] and
    truncated to [uint8_t] on assignment, so a position of 8 or more leaves
    the mask 0; C++ leaves the shift undefined once [x] reaches the width of
    [int], and the model gives 0 there as well. *)
Definition init (data clk strobe Rs Rw En d4 d5 d6 d7 : Z) : M Z :=
  emit (fio_pinToOutputRegister_ev data) ;;
  emit (fio_pinToOutputRegister_ev clk) ;;
  emit (fio_pinToOutputRegister_ev strobe) ;;
  put {| _data := fio_pinToBit data;
         _clk := fio_pinToBit clk;
         _strobe := fio_pinToBit strobe;
         _data_reg := fio_pinToOutputRegister data;
         _clk_reg := fio_pinToOutputRegister clk;
         _strobe_reg := fio_pinToOutputRegister strobe;
         _backlightPinMask := 0;
         _backlightStsMask := LCD_NOBACKLIGHT;
         _polarity := POSITIVE;
         _En := u8 (Z.shiftl 1 En);
         _Rw := u8 (Z.shiftl 1 Rw);
         _Rs := u8 (Z.shiftl 1 Rs);
         _data_pins := [ u8 (Z.shiftl 1 d4); u8 (Z.shiftl 1 d5);
                         u8 (Z.shiftl 1 d6); u8 (Z.shiftl 1 d7) ];
         _displayfunction :=
           u8 (Z.lor (Z.lor LCD_4BITMODE LCD_1LINE) LCD_5x10DOTS) |} ;;
  ret 1.

(** The four constructors, lines 122-146, named after their parameters.
    The value [init] returns is dropped by each of them. *)
Definition SR3W_new (data clk strobe : Z) : M unit :=
  init data clk strobe RS RW EN D4 D5 D6 D7 ;; ret tt.

Definition SR3W_new_backlight (data clk strobe backlighPin : Z)
    (pol : t_backlighPol) : M unit :=
  init data clk strobe RS RW EN D4 D5 D6 D7 ;; ret tt.

Definition SR3W_new_pins (data clk strobe En Rw Rs d4 d5 d6 d7 : Z) : M unit :=
  init data clk strobe En Rw En d4 d5 d6 d7 ;; ret tt.

Definition SR3W_new_pins_backlight (data clk strobe En Rw Rs d4 d5 d6 d7 : Z)
    (backlighPin : Z) (pol : t_backlighPol) : M unit :=
  init data clk strobe En Rw En d4 d5 d6 d7 ;; ret tt.

(** ** Reading a trace *)

(** The bytes handed to [loadSR], in order. *)
Fixpoint loads (t : trace) : list Z :=
  match t with
  | [] => []
  | Call_loadSR b :: t' => b :: loads t'
  | _ :: t' => loads t'
  end.

(** The (value, mode) pairs handed to [write4bits], in order. *)
Fixpoint nibbles (t : trace) : list (Z * Z) :=
  match t with
  | [] => []
  | Call_write4bits v m :: t' => (v, m) :: nibbles t'
  | _ :: t' => nibbles t'
  end.

(** What reaches the three lines and the delay routine: the trace without
    the method-entry marks and the critical-section brackets. *)
Definition on_the_wire (e : event) : bool :=
  match e with
  | fio_shiftOut _ _ _ _ _ _ | fio_digitalWrite_HIGH _ _
  | fio_digitalWrite_SWITCHTO _ _ _ | waitUsec _ => true
  | _ => false
  end.

Definition wire (t : trace) : trace := filter on_the_wire t.

(** ** Pin mappings *)

Fixpoint distinct (l : list Z) : bool :=
  match l with
  | [] => true
  | x :: l' => forallb (fun y => negb (x =? y)) l' && distinct l'
  end.

(** The seven LCD signals sit at bit positions [en rw rs d4 d5 d6 d7] of the
    shift-register byte, all different, and the stored masks are the
    single-bit masks of these positions. *)
Record wired (s : LiquidCrystal_SR3W) (en rw rs d4 d5 d6 d7 : Z) : Prop := {
  wired_range : forallb (fun p => (0 <=? p) && (p <? 8)) [en; rw; rs; d4; d5; d6; d7] = true;
  wired_distinct : distinct [en; rw; rs; d4; d5; d6; d7] = true;
  wired_En : _En s = Z.shiftl 1 en;
  wired_Rw : _Rw s = Z.shiftl 1 rw;
  wired_Rs : _Rs s = Z.shiftl 1 rs;
  wired_data : _data_pins s = [Z.shiftl 1 d4; Z.shiftl 1 d5; Z.shiftl 1 d6; Z.shiftl 1 d7]
}.

(** Bit [p] is set in none of the masks [write4bits] puts into a byte for
    the LCD: Enable, Register-Select and the four data lines. *)
Definition unused_bit (p : Z) (s : LiquidCrystal_SR3W) : Prop :=
  Z.testbit (_En s) p = false /\ Z.testbit (_Rs s) p = false
  /\ Forall (fun m => Z.testbit m p = false) (_data_pins s).

(** The backlight status mask has none of the seven LCD signal bits set. *)
Definition backlight_apart (s : LiquidCrystal_SR3W) (en rw rs d4 d5 d6 d7 : Z) : Prop :=
  forallb (fun q => negb (Z.testbit (_backlightStsMask s) q))
          [en; rw; rs; d4; d5; d6; d7] = true.

(** The byte [write4bits] composes before the Enable bit is forced. *)
Definition composed (value mode : Z) (s : LiquidCrystal_SR3W) : Z :=
  u8 (Z.lor (map_pins 4 0 value 0 (_data_pins s))
            (Z.lor (if mode =? DATA then _Rs s else mode) (_backlightStsMask s))).

(** Bit [j] of the value the loop computes, read off the loop itself. *)
Fixpoint mapped_bit (n i : nat) (value : Z) (pins : list Z) (j : Z) : bool :=
  match n with
  | O => false
  | S n' =>
      (Z.testbit value 0 && Z.testbit (nth i pins 0) j)
      || mapped_bit n' (S i) (Z.shiftr value 1) pins j
  end.

(** Two driver objects with the same LCD signal masks and the same backlight
    status. *)
Definition same_wiring (s s' : LiquidCrystal_SR3W) : Prop :=
  _En s' = _En s /\ _Rw s' = _Rw s /\ _Rs s' = _Rs s
  /\ _data_pins s' = _data_pins s
  /\ _backlightStsMask s' = _backlightStsMask s.

(** ** Sequences of operations on a constructed driver *)

Inductive op : Set :=
| Op_send (value mode : Z)
| Op_write4bits (value mode : Z)
| Op_setBacklightPin (value : Z) (pol : t_backlighPol).

Definition run_op (o : op) : M unit :=
  match o with
  | Op_send v m => send v m
  | Op_write4bits v m => write4bits v m
  | Op_setBacklightPin v pol => setBacklightPin v pol
  end.

Fixpoint run_ops (l : list op) : M unit :=
  match l with
  | [] => ret tt
  | o :: l' => run_op o ;; run_ops l'
  end.

(** The mode values a caller may pass. *)
Definition valid_op (o : op) : Prop :=
  match o with
  | Op_send _ m => m = COMMAND \/ m = DATA \/ m = FOUR_BITS
  | Op_write4bits _ m => m = COMMAND \/ m = DATA
  | Op_setBacklightPin _ _ => True
  end.

(** An object before its constructor has run, and the driver that the
    three-argument constructor builds from it. *)
Definition blank : LiquidCrystal_SR3W :=
  {| _data := 0; _clk := 0; _strobe := 0;
     _data_reg := 0; _clk_reg := 0; _strobe_reg := 0;
     _backlightPinMask := 0; _backlightStsMask := 0; _polarity := POSITIVE;
     _En := 0; _Rw := 0; _Rs := 0; _data_pins := [];
     _displayfunction := 0 |}.

Definition default_driver (data clk strobe : Z) : LiquidCrystal_SR3W :=
  state_of (SR3W_new data clk strobe blank).

(** ** Sequences of calls to the public methods *)

Inductive api : Set :=
| Api_send (value mode : Z)
| Api_setBacklightPin (value : Z) (pol : t_backlighPol)
| Api_setBacklight (value : Z).

Definition run_api (c : api) : M unit :=
  match c with
  | Api_send v m => send v m
  | Api_setBacklightPin v pol => setBacklightPin v pol
  | Api_setBacklight v => setBacklight v
  end.

Fixpoint run_apis (l : list api) : M unit :=
  match l with
  | [] => ret tt
  | c :: l' => run_api c ;; run_apis l'
  end.

(** What a method leaves in the trace, entry by entry: a nibble handed to
    [write4bits] or a byte handed to [loadSR]. *)
Inductive item : Set :=
| I_nibble (value mode : Z)
| I_load (value : Z).

Definition render (s : LiquidCrystal_SR3W) (it : item) : trace :=
  match it with
  | I_nibble v m => [ Call_write4bits v m ]
  | I_load b =>
      [ Call_loadSR b;
        fio_shiftOut (_data_reg s) (_data s) (_clk_reg s) (_clk s) b MSBFIRST;
        ATOMIC_BLOCK_enter;
        fio_digitalWrite_HIGH (_strobe_reg s) (_strobe s);
        waitUsec 1;
        fio_digitalWrite_SWITCHTO (_strobe_reg s) (_strobe s) LOW;
        ATOMIC_BLOCK_leave;
        waitUsec 40 ]
  end.

(** Two driver objects on the same three lines. *)
Definition same_lines (s s' : LiquidCrystal_SR3W) : Prop :=
  _data s' = _data s /\ _clk s' = _clk s /\ _strobe s' = _strobe s
  /\ _data_reg s' = _data_reg s /\ _clk_reg s' = _clk_reg s
  /\ _strobe_reg s' = _strobe_reg s.

(** The strobe line as a trace drives it.  The state is (inside the
    critical section, strobe high).  A byte is shifted, on the data and
    clock lines of [s], only while the strobe is low and interrupts are
    enabled; the strobe of [s] is raised and lowered only inside the critical
    section, which is left with the strobe low. *)
Definition line_step (s : LiquidCrystal_SR3W) (st : bool * bool) (e : event)
  : option (bool * bool) :=
  match e, st with
  | Call_write4bits _ _, _ | Call_loadSR _, _ | fio_pinToOutputRegister_ev _, _
  | waitUsec _, _ => Some st
  | fio_shiftOut dr db cr cb _ MSBFIRST, (false, false) =>
      if (dr =? _data_reg s) && (db =? _data s)
         && (cr =? _clk_reg s) && (cb =? _clk s)
      then Some st else None
  | ATOMIC_BLOCK_enter, (false, false) => Some (true, false)
  | fio_digitalWrite_HIGH r b, (true, false) =>
      if (r =? _strobe_reg s) && (b =? _strobe s) then Some (true, true) else None
  | fio_digitalWrite_SWITCHTO r b LOW, (true, true) =>
      if (r =? _strobe_reg s) && (b =? _strobe s) then Some (true, false) else None
  | ATOMIC_BLOCK_leave, (true, false) => Some (false, false)
  | _, _ => None
  end.

Fixpoint follow (s : LiquidCrystal_SR3W) (t : trace) (st : bool * bool)
  : option (bool * bool) :=
  match t with
  | [] => Some st
  | e :: t' =>
      match line_step s st e with
      | Some st' => follow s t' st'
      | None => None
      end
  end.

(** The microseconds asked of the delay routine, summed over a trace. *)
Fixpoint requested_delay (t : trace) : Z :=
  match t with
  | [] => 0
  | waitUsec n :: t' => n + requested_delay t'
  | _ :: t' => requested_delay t'
  end.

(** The bytes handed to the shift-out primitive, with their bit order. *)
Fixpoint shifted (t : trace) : list (Z * bit_order) :=
  match t with
  | [] => []
  | fio_shiftOut _ _ _ _ b o :: t' => (b, o) :: shifted t'
  | _ :: t' => shifted t'
  end.

(** * Properties *)

(** ** Bits of machine integers *)

Lemma u8_range x : is_u8 (u8 x).
Proof. unfold is_u8, u8. apply Z.mod_pos_bound. lia. Qed.

Lemma u8_id x : is_u8 x -> u8 x = x.
Proof. unfold is_u8, u8. intros H. apply Z.mod_small. exact H. Qed.

Lemma u8_testbit x j : Z.testbit (u8 x) j = (j <? 8) && Z.testbit x j.
Proof.
  unfold u8. change 256 with (2 ^ 8).
  destruct (Z.ltb_spec j 8) as [Hlt | Hge]; cbn [andb].
  - destruct (Z.ltb_spec j 0) as [Hneg | Hpos].
    + now rewrite !Z.testbit_neg_r.
    + apply Z.mod_pow2_bits_low. lia.
  - apply Z.mod_pow2_bits_high. lia.
Qed.

Lemma bit_testbit p j : 0 <= p -> Z.testbit (Z.shiftl 1 p) j = (j =? p).
Proof.
  intros Hp. rewrite Z.shiftl_1_l.
  destruct (Z.eqb_spec j p) as [-> | Hne].
  - apply Z.pow2_bits_true. exact Hp.
  - apply Z.pow2_bits_false. congruence.
Qed.

Lemma low_bit_test x : (Z.land x 0x1 =? 1) = Z.testbit x 0.
Proof.
  change 1 with (Z.ones 1) at 1. rewrite Z.land_ones by lia.
  change (2 ^ 1) with 2. rewrite <- Z.bit0_mod.
  now destruct (Z.testbit x 0).
Qed.

(** ** The nibble-to-pins loop *)

Lemma map_pins_testbit n : forall i value acc pins j,
  0 <= j < 8 ->
  Z.testbit (map_pins n i value acc pins) j
  = Z.testbit acc j || mapped_bit n i value pins j.
Proof.
  induction n as [| n IH]; intros i value acc pins j Hj; cbn [map_pins mapped_bit].
  - now rewrite orb_false_r.
  - rewrite IH by exact Hj. rewrite low_bit_test.
    destruct (Z.testbit value 0); cbn [andb orb].
    + rewrite u8_testbit, Z.lor_spec.
      replace (j <? 8) with true by (symmetry; apply Z.ltb_lt; lia).
      cbn [andb]. now rewrite orb_assoc.
    + reflexivity.
Qed.

Lemma map_pins_u8 n : forall i value acc pins,
  is_u8 acc -> is_u8 (map_pins n i value acc pins).
Proof.
  induction n as [| n IH]; intros i value acc pins Hacc; cbn [map_pins].
  - exact Hacc.
  - apply IH. destruct (Z.land value 1 =? 1); [apply u8_range | exact Hacc].
Qed.

Lemma map_pins_4 value m0 m1 m2 m3 j :
  0 <= j < 8 ->
  Z.testbit (map_pins 4 0 value 0 [m0; m1; m2; m3]) j
  = (Z.testbit value 0 && Z.testbit m0 j) || (Z.testbit value 1 && Z.testbit m1 j)
    || (Z.testbit value 2 && Z.testbit m2 j) || (Z.testbit value 3 && Z.testbit m3 j).
Proof.
  intros Hj. rewrite map_pins_testbit by exact Hj.
  cbn [mapped_bit nth]. rewrite !Z.shiftr_spec by lia. cbn [Z.add Pos.add Pos.succ].
  rewrite Z.bits_0, orb_false_r. cbn [orb]. now rewrite !orb_assoc.
Qed.

(** ** What a method leaves in the trace *)

Lemma loadSR_run b s :
  loadSR b s =
  (tt, s,
   [ Call_loadSR b;
     fio_shiftOut (_data_reg s) (_data s) (_clk_reg s) (_clk s) b MSBFIRST;
     ATOMIC_BLOCK_enter;
     fio_digitalWrite_HIGH (_strobe_reg s) (_strobe s);
     waitUsec 1;
     fio_digitalWrite_SWITCHTO (_strobe_reg s) (_strobe s) LOW;
     ATOMIC_BLOCK_leave;
     waitUsec 40 ]).
Proof. reflexivity. Qed.

Lemma write4bits_state value mode s : state_of (write4bits value mode s) = s.
Proof. reflexivity. Qed.

Lemma write4bits_loads value mode s :
  loads (trace_of (write4bits value mode s))
  = [ u8 (Z.lor (composed value mode s) (_En s));
      u8 (Z.land (composed value mode s) (Z.lnot (_En s))) ].
Proof. reflexivity. Qed.

Lemma write4bits_nibbles value mode s :
  nibbles (trace_of (write4bits value mode s)) = [ (value, mode) ].
Proof. reflexivity. Qed.

(** ** Bits of the composed byte *)

Ltac unpack :=
  repeat match goal with
    | H : wired _ _ _ _ _ _ _ _ |- _ => destruct H
    | H : backlight_apart _ _ _ _ _ _ _ _ |- _ => unfold backlight_apart in H
    | H : forallb _ (_ :: _) = true |- _ => cbn [forallb] in H
    | H : distinct (_ :: _) = true |- _ => cbn [distinct forallb] in H
    | H : _ && _ = true |- _ => apply andb_prop in H; destruct H
    | H : negb _ = true |- _ => apply negb_true_iff in H
    | H : (_ =? _) = false |- _ => apply Z.eqb_neq in H
    | H : (_ <=? _) = true |- _ => apply Z.leb_le in H
    | H : (_ <? _) = true |- _ => apply Z.ltb_lt in H
    | H : true = true |- _ => clear H
    end.

(** Disequalities are settled by substitution, not by [lia]: the wiring
    brings twenty-one of them. *)
Ltac split_eqb :=
  repeat match goal with
    | |- context [?a =? ?b] =>
        destruct (Z.eqb_spec a b); [ try subst a | ]; try congruence
    end.

Lemma land_bit b p :
  0 <= p -> Z.land b (Z.shiftl 1 p) = if Z.testbit b p then Z.shiftl 1 p else 0.
Proof.
  intros Hp. apply Z.bits_inj'. intros j Hj.
  rewrite Z.land_spec, bit_testbit by exact Hp.
  destruct (Z.eqb_spec j p) as [-> | Hne].
  - rewrite andb_true_r. destruct (Z.testbit b p) eqn:E.
    + rewrite bit_testbit by exact Hp. symmetry. apply Z.eqb_refl.
    + now rewrite Z.bits_0.
  - rewrite andb_false_r. destruct (Z.testbit b p).
    + rewrite bit_testbit by exact Hp. symmetry. now apply Z.eqb_neq.
    + now rewrite Z.bits_0.
Qed.

Lemma bit_nonzero p : 0 <= p -> Z.shiftl 1 p <> 0.
Proof.
  intros Hp E. assert (H : Z.testbit (Z.shiftl 1 p) p = true).
  { rewrite bit_testbit by exact Hp. apply Z.eqb_refl. }
  rewrite E, Z.bits_0 in H. discriminate.
Qed.

Lemma wired_nonneg s en rw rs d4 d5 d6 d7 :
  wired s en rw rs d4 d5 d6 d7 ->
  0 <= en /\ 0 <= rw /\ 0 <= rs /\ 0 <= d4 /\ 0 <= d5 /\ 0 <= d6 /\ 0 <= d7.
Proof. intros W. unpack. repeat split; assumption. Qed.

Lemma wired_below s en rw rs d4 d5 d6 d7 :
  wired s en rw rs d4 d5 d6 d7 ->
  en < 8 /\ rw < 8 /\ rs < 8 /\ d4 < 8 /\ d5 < 8 /\ d6 < 8 /\ d7 < 8.
Proof. intros W. unpack. repeat split; assumption. Qed.

Lemma composed_testbit s en rw rs d4 d5 d6 d7 value mode j :
  wired s en rw rs d4 d5 d6 d7 ->
  COMMAND = 0 ->
  mode = COMMAND \/ mode = DATA ->
  0 <= j < 8 ->
  Z.testbit (composed value mode s) j
  = (Z.testbit value 0 && (j =? d4)) || (Z.testbit value 1 && (j =? d5))
    || (Z.testbit value 2 && (j =? d6)) || (Z.testbit value 3 && (j =? d7))
    || ((mode =? DATA) && (j =? rs))
    || Z.testbit (_backlightStsMask s) j.
Proof.
  intros W HC Hmode Hj. unfold composed.
  pose proof (wired_data _ _ _ _ _ _ _ _ W) as Hpins.
  pose proof (wired_Rs _ _ _ _ _ _ _ _ W) as HRs.
  destruct (wired_nonneg _ _ _ _ _ _ _ _ W) as (_ & _ & Hrs & H4 & H5 & H6 & H7).
  clear W.
  rewrite u8_testbit, !Z.lor_spec, Hpins, map_pins_4 by exact Hj.
  rewrite !bit_testbit by assumption.
  replace (j <? 8) with true by (symmetry; apply Z.ltb_lt; lia).
  cbn [andb]. rewrite orb_assoc.
  assert (E : Z.testbit (if mode =? DATA then _Rs s else mode) j
              = (mode =? DATA) && (j =? rs)).
  { destruct (Z.eqb_spec mode DATA) as [E | E]; cbn [andb].
    - rewrite HRs. apply bit_testbit. exact Hrs.
    - destruct Hmode as [-> | ->]; [ | congruence ].
      rewrite HC. apply Z.bits_0. }
  now rewrite E.
Qed.

Lemma high_load_testbit c en j :
  0 <= en -> 0 <= j < 8 ->
  Z.testbit (u8 (Z.lor c (Z.shiftl 1 en))) j = Z.testbit c j || (j =? en).
Proof.
  intros Hen Hj. rewrite u8_testbit, Z.lor_spec, bit_testbit by exact Hen.
  replace (j <? 8) with true by (symmetry; apply Z.ltb_lt; lia).
  reflexivity.
Qed.

Lemma low_load_testbit c en j :
  0 <= en -> 0 <= j < 8 ->
  Z.testbit (u8 (Z.land c (Z.lnot (Z.shiftl 1 en)))) j
  = Z.testbit c j && negb (j =? en).
Proof.
  intros Hen Hj.
  rewrite u8_testbit, Z.land_spec, Z.lnot_spec, bit_testbit by lia.
  replace (j <? 8) with true by (symmetry; apply Z.ltb_lt; lia).
  reflexivity.
Qed.

Lemma composed_signal_bits s en rw rs d4 d5 d6 d7 value mode :
  wired s en rw rs d4 d5 d6 d7 ->
  backlight_apart s en rw rs d4 d5 d6 d7 ->
  COMMAND = 0 ->
  mode = COMMAND \/ mode = DATA ->
  let c := composed value mode s in
  Z.testbit c d4 = Z.testbit value 0 /\ Z.testbit c d5 = Z.testbit value 1 /\
  Z.testbit c d6 = Z.testbit value 2 /\ Z.testbit c d7 = Z.testbit value 3 /\
  Z.testbit c rs = (mode =? DATA) /\ Z.testbit c rw = false.
Proof.
  intros W B HC Hmode c. subst c.
  pose proof (fun j => composed_testbit s en rw rs d4 d5 d6 d7 value mode j W HC Hmode) as Hc.
  unpack.
  repeat split; rewrite Hc by (split; assumption);
    repeat match goal with H : Z.testbit (_backlightStsMask s) _ = false |- _ =>
      rewrite H; clear H end;
    rewrite ?Z.eqb_refl; split_eqb;
    destruct (Z.testbit value 0), (Z.testbit value 1),
             (Z.testbit value 2), (Z.testbit value 3); reflexivity.
Qed.

(** ** [write4bits] *)

(** C1.  On a driver whose seven LCD signals are wired to different bit
    positions (and whose backlight status bit is none of them),
    [write4bits v mode] with [mode] COMMAND or DATA issues exactly two
    shift-register loads.  In both bytes the bits selected by
    [_data_pins[i]] repeat bit [i] of [v], the Register-Select bit is set
    exactly when [mode] is DATA, and the Read/Write bit is clear.  The first
    byte has the Enable bit set; the second is the first with the Enable bit
    cleared. *)
Theorem write4bits_composes_byte s en rw rs d4 d5 d6 d7 v mode :
  wired s en rw rs d4 d5 d6 d7 ->
  backlight_apart s en rw rs d4 d5 d6 d7 ->
  COMMAND = 0 ->
  0 <= v < 16 ->
  mode = COMMAND \/ mode = DATA ->
  exists hi lo,
    loads (trace_of (write4bits v mode s)) = [hi; lo]
    /\ _En s <> 0 /\ Z.land hi (_En s) = _En s
    /\ lo = Z.land hi (Z.lnot (_En s))
    /\ forall b, b = hi \/ b = lo ->
         (forall i, (i < 4)%nat ->
            nth i (_data_pins s) 0 <> 0 /\
            Z.land b (nth i (_data_pins s) 0)
            = if Z.testbit v (Z.of_nat i) then nth i (_data_pins s) 0 else 0)
         /\ (Z.land b (_Rs s) <> 0 <-> mode = DATA)
         /\ Z.land b (_Rw s) = 0.
Proof.
  intros W B HC Hv Hmode.
  exists (u8 (Z.lor (composed v mode s) (_En s))),
         (u8 (Z.land (composed v mode s) (Z.lnot (_En s)))).
  split; [ apply write4bits_loads | ].
  destruct (composed_signal_bits s en rw rs d4 d5 d6 d7 v mode W B HC Hmode)
    as (C4 & C5 & C6 & C7 & CRs & CRw).
  destruct (wired_nonneg _ _ _ _ _ _ _ _ W) as (Nen & Nrw & Nrs & N4 & N5 & N6 & N7).
  destruct (wired_below _ _ _ _ _ _ _ _ W) as (Ben & Brw & Brs & B4 & B5 & B6 & B7).
  rewrite (wired_En _ _ _ _ _ _ _ _ W), (wired_Rw _ _ _ _ _ _ _ _ W),
          (wired_Rs _ _ _ _ _ _ _ _ W), (wired_data _ _ _ _ _ _ _ _ W).
  assert (Hhi : forall j, 0 <= j < 8 -> j <> en ->
            Z.testbit (u8 (Z.lor (composed v mode s) (Z.shiftl 1 en))) j
            = Z.testbit (composed v mode s) j).
  { intros j Hj Hne. rewrite high_load_testbit by assumption.
    apply Z.eqb_neq in Hne. rewrite Hne. apply orb_false_r. }
  assert (Hlo : forall j, 0 <= j < 8 -> j <> en ->
            Z.testbit (u8 (Z.land (composed v mode s) (Z.lnot (Z.shiftl 1 en)))) j
            = Z.testbit (composed v mode s) j).
  { intros j Hj Hne. rewrite low_load_testbit by assumption.
    apply Z.eqb_neq in Hne. rewrite Hne. apply andb_true_r. }
  assert (Hne : rw <> en /\ rs <> en /\ d4 <> en /\ d5 <> en /\ d6 <> en /\ d7 <> en).
  { clear - W. unpack. repeat split; congruence. }
  destruct Hne as (Erw & Ers & E4 & E5 & E6 & E7).
  split; [ apply bit_nonzero; exact Nen | ].
  split.
  { rewrite land_bit, high_load_testbit by (try split; assumption).
    now rewrite Z.eqb_refl, orb_true_r. }
  split.
  { apply Z.bits_inj'. intros j Hj.
    rewrite !u8_testbit, !Z.land_spec, u8_testbit, Z.lor_spec, Z.lnot_spec,
            bit_testbit by assumption.
    destruct (j <? 8), (Z.testbit (composed v mode s) j), (j =? en); reflexivity. }
  assert (Hboth : forall b,
            (forall j, 0 <= j < 8 -> j <> en ->
               Z.testbit b j = Z.testbit (composed v mode s) j) ->
            (forall i, (i < 4)%nat ->
               nth i [Z.shiftl 1 d4; Z.shiftl 1 d5; Z.shiftl 1 d6; Z.shiftl 1 d7] 0 <> 0 /\
               Z.land b (nth i [Z.shiftl 1 d4; Z.shiftl 1 d5; Z.shiftl 1 d6; Z.shiftl 1 d7] 0)
               = if Z.testbit v (Z.of_nat i)
                 then nth i [Z.shiftl 1 d4; Z.shiftl 1 d5; Z.shiftl 1 d6; Z.shiftl 1 d7] 0
                 else 0)
            /\ (Z.land b (Z.shiftl 1 rs) <> 0 <-> mode = DATA)
            /\ Z.land b (Z.shiftl 1 rw) = 0).
  { intros b Hb. repeat split.
    - destruct i as [| [| [| [| i]]]]; cbn [nth]; try lia; apply bit_nonzero; assumption.
    - destruct i as [| [| [| [| i]]]]; cbn [nth Z.of_nat Pos.of_succ_nat Pos.succ];
        try lia; rewrite land_bit, Hb by (try split; assumption);
        rewrite ?C4, ?C5, ?C6, ?C7; reflexivity.
    - rewrite land_bit, Hb, CRs by (try split; assumption).
      destruct (Z.eqb_spec mode DATA); [ trivial | congruence ].
    - rewrite land_bit, Hb, CRs by (try split; assumption).
      destruct (Z.eqb_spec mode DATA); [ intros _; now apply bit_nonzero | congruence ].
    - rewrite land_bit, Hb, CRw by (try split; assumption). reflexivity. }
  intros b [-> | ->]; apply Hboth; assumption.
Qed.

(** ** [send] *)

Lemma high_nibble_u8 v : is_u8 v -> u8 (Z.shiftr v 4) = Z.shiftr v 4.
Proof.
  unfold is_u8. intros Hv. apply u8_id. unfold is_u8.
  rewrite Z.shiftr_div_pow2 by lia. change (2 ^ 4) with 16.
  split; [ apply Z.div_pos; lia | apply Z.div_lt_upper_bound; lia ].
Qed.

Lemma low_nibble_u8 v : u8 (Z.land v 0x0F) = Z.land v 0x0F.
Proof.
  apply u8_id. unfold is_u8. change 0x0F with (Z.ones 4).
  rewrite Z.land_ones by lia. change (2 ^ 4) with 16.
  pose proof (Z.mod_pos_bound v 16). lia.
Qed.

(** C2.  For an 8-bit [v] and [mode] COMMAND or DATA (neither of which is
    the FOUR_BITS tag), [send v mode] is [write4bits (v >> 4) mode] followed
    by [write4bits (v & 0x0F) mode]: these are the only two entries into
    [write4bits], in this order. *)
Theorem send_two_nibbles s v mode :
  is_u8 v ->
  mode = COMMAND \/ mode = DATA ->
  FOUR_BITS <> COMMAND -> FOUR_BITS <> DATA ->
  send v mode s
  = (write4bits (Z.shiftr v 4) mode ;; write4bits (Z.land v 0x0F) mode) s
  /\ nibbles (trace_of (send v mode s))
     = [ (Z.shiftr v 4, mode); (Z.land v 0x0F, mode) ].
Proof.
  intros Hv Hmode HC HD. unfold send.
  assert (E : (mode =? FOUR_BITS) = false).
  { apply Z.eqb_neq. destruct Hmode; congruence. }
  rewrite E, high_nibble_u8, low_nibble_u8 by exact Hv.
  split; reflexivity.
Qed.

(** C3.  [send v FOUR_BITS] is the single call
    [write4bits (v & 0x0F) COMMAND]; two values that agree on their low
    nibble are sent identically, so the high nibble never leaves the
    driver. *)
Theorem send_four_bits s v :
  is_u8 v ->
  send v FOUR_BITS s = write4bits (Z.land v 0x0F) COMMAND s
  /\ nibbles (trace_of (send v FOUR_BITS s)) = [ (Z.land v 0x0F, COMMAND) ]
  /\ forall v', is_u8 v' -> Z.land v' 0x0F = Z.land v 0x0F ->
       send v' FOUR_BITS s = send v FOUR_BITS s.
Proof.
  intros Hv. unfold send. rewrite Z.eqb_refl, low_nibble_u8.
  repeat split. intros v' _ E. now rewrite low_nibble_u8, E.
Qed.

(** ** [setBacklight] *)

Lemma setBacklight_run level s :
  _backlightPinMask s <> 0 ->
  let sts :=
    if (t_backlighPol_eqb (_polarity s) POSITIVE && (level >? 0))
       || (t_backlighPol_eqb (_polarity s) NEGATIVE && (level =? 0))
    then u8 (Z.land (_backlightPinMask s) LCD_BACKLIGHT)
    else u8 (Z.land (_backlightPinMask s) LCD_NOBACKLIGHT) in
  state_of (setBacklight level s) = set_backlightStsMask sts s
  /\ loads (trace_of (setBacklight level s)) = [ sts ].
Proof.
  intros Hmask. unfold setBacklight, bind, get.
  apply Z.eqb_neq in Hmask. rewrite Hmask. cbn [negb].
  destruct (t_backlighPol_eqb (_polarity s) POSITIVE && (level >? 0)
            || t_backlighPol_eqb (_polarity s) NEGATIVE && (level =? 0));
    split; reflexivity.
Qed.

Lemma land_LCD_BACKLIGHT m : is_u8 m -> u8 (Z.land m LCD_BACKLIGHT) = m.
Proof.
  intros Hm. unfold LCD_BACKLIGHT. change 0xFF with (Z.ones 8).
  rewrite Z.land_ones by lia. change (2 ^ 8) with 256.
  rewrite (Z.mod_small m 256) by exact Hm. apply u8_id. exact Hm.
Qed.

Lemma land_LCD_NOBACKLIGHT m : u8 (Z.land m LCD_NOBACKLIGHT) = 0.
Proof. unfold LCD_NOBACKLIGHT. now rewrite Z.land_0_r. Qed.

(** C6.  With a backlight bit configured, [setBacklight level] stores the
    backlight pin mask as status when the polarity is POSITIVE and
    [level > 0], or NEGATIVE and [level = 0], and stores zero otherwise; no
    other member changes, and exactly one shift-register load follows,
    whose byte is the new status mask. *)
Theorem setBacklight_configured s level :
  is_u8 (_backlightPinMask s) ->
  _backlightPinMask s <> 0 ->
  let r := setBacklight level s in
  ((_polarity s = POSITIVE /\ level > 0) \/ (_polarity s = NEGATIVE /\ level = 0) ->
     _backlightStsMask (state_of r) = _backlightPinMask s)
  /\ (~ ((_polarity s = POSITIVE /\ level > 0) \/ (_polarity s = NEGATIVE /\ level = 0)) ->
     _backlightStsMask (state_of r) = 0)
  /\ state_of r = set_backlightStsMask (_backlightStsMask (state_of r)) s
  /\ loads (trace_of r) = [ _backlightStsMask (state_of r) ].
Proof.
  intros Hu8 Hmask r. subst r.
  destruct (setBacklight_run level s Hmask) as [Hs Hl].
  rewrite Hs, Hl. cbn [_backlightStsMask set_backlightStsMask].
  rewrite land_LCD_BACKLIGHT, land_LCD_NOBACKLIGHT by exact Hu8.
  repeat split.
  - intros [[Hp Hlv] | [Hp Hlv]]; rewrite Hp; cbn [t_backlighPol_eqb andb orb].
    + apply Z.gtb_gt in Hlv. now rewrite Hlv.
    + apply Z.eqb_eq in Hlv. now rewrite Hlv.
  - intros Hnot. destruct (_polarity s); cbn [t_backlighPol_eqb andb orb].
    + destruct (Z.gtb_spec level 0) as [Hgt | Hle]; [ | reflexivity ].
      exfalso. apply Hnot. left. split; [ reflexivity | lia ].
    + destruct (Z.eqb_spec level 0) as [Heq | Hne]; [ | reflexivity ].
      exfalso. apply Hnot. right. split; [ reflexivity | exact Heq ].
Qed.

Lemma setBacklight_no_pin level s :
  _backlightPinMask s = 0 -> setBacklight level s = (tt, s, []).
Proof.
  intros Hmask. unfold setBacklight, bind, get. rewrite Hmask. reflexivity.
Qed.

(** C7.  Without a configured backlight bit (pin mask zero),
    [setBacklight level] does nothing: the trace is empty and the driver
    object is what it was. *)
Theorem setBacklight_unconfigured s level :
  _backlightPinMask s = 0 ->
  setBacklight level s = (tt, s, []).
Proof. exact (setBacklight_no_pin level s). Qed.

(** ** [loadSR] *)

(** C8.  [loadSR b] first shifts [b] out most-significant-bit first on the
    data and clock lines, then raises the strobe line, asks the delay
    routine for 1 microsecond, lowers the strobe line, and asks for 40
    microseconds; nothing else reaches the lines, the strobe pulse lies
    inside the critical section, and the driver object is unchanged. *)
Theorem loadSR_sequence s b :
  wire (trace_of (loadSR b s))
  = [ fio_shiftOut (_data_reg s) (_data s) (_clk_reg s) (_clk s) b MSBFIRST;
      fio_digitalWrite_HIGH (_strobe_reg s) (_strobe s);
      waitUsec 1;
      fio_digitalWrite_SWITCHTO (_strobe_reg s) (_strobe s) LOW;
      waitUsec 40 ]
  /\ trace_of (loadSR b s)
     = [ Call_loadSR b;
         fio_shiftOut (_data_reg s) (_data s) (_clk_reg s) (_clk s) b MSBFIRST;
         ATOMIC_BLOCK_enter;
         fio_digitalWrite_HIGH (_strobe_reg s) (_strobe s);
         waitUsec 1;
         fio_digitalWrite_SWITCHTO (_strobe_reg s) (_strobe s) LOW;
         ATOMIC_BLOCK_leave;
         waitUsec 40 ]
  /\ state_of (loadSR b s) = s.
Proof. rewrite loadSR_run. repeat split. Qed.

(** ** Construction *)

(** C9.  [init] returns 1 whatever its arguments and whatever the object
    held before, performs no shift-register load, and leaves the backlight
    pin mask and status mask at zero, the polarity POSITIVE and the display
    function at LCD_4BITMODE | LCD_1LINE | LCD_5x10DOTS. *)
Theorem init_defaults s0 data clk strobe Rs Rw En d4 d5 d6 d7 :
  let r := init data clk strobe Rs Rw En d4 d5 d6 d7 s0 in
  result r = 1
  /\ loads (trace_of r) = []
  /\ _backlightPinMask (state_of r) = 0
  /\ _backlightStsMask (state_of r) = 0
  /\ _polarity (state_of r) = POSITIVE
  /\ _displayfunction (state_of r)
     = u8 (Z.lor (Z.lor LCD_4BITMODE LCD_1LINE) LCD_5x10DOTS).
Proof. cbv zeta. repeat split. Qed.

(** C10.  The two constructors that take a backlight pin and polarity
    build exactly the object their siblings without these parameters
    build: the backlight pin mask is zero, the polarity is POSITIVE, and
    [setBacklight] does nothing on the new object. *)
Theorem backlight_arguments_unused s0 data clk strobe En Rw Rs d4 d5 d6 d7
    backlighPin pol :
  let r1 := SR3W_new_backlight data clk strobe backlighPin pol s0 in
  let r2 := SR3W_new_pins_backlight data clk strobe En Rw Rs d4 d5 d6 d7
              backlighPin pol s0 in
  r1 = SR3W_new data clk strobe s0
  /\ r2 = SR3W_new_pins data clk strobe En Rw Rs d4 d5 d6 d7 s0
  /\ _backlightPinMask (state_of r1) = 0 /\ _polarity (state_of r1) = POSITIVE
  /\ _backlightPinMask (state_of r2) = 0 /\ _polarity (state_of r2) = POSITIVE
  /\ forall level,
       setBacklight level (state_of r1) = (tt, state_of r1, [])
       /\ setBacklight level (state_of r2) = (tt, state_of r2, []).
Proof.
  cbv zeta. repeat split; apply setBacklight_no_pin; reflexivity.
Qed.

(** Whatever [Rs] the caller names, the custom-mapping constructors store
    the Enable mask as Register-Select mask. *)
Lemma custom_constructor_Rs_is_En s0 data clk strobe En Rw Rs d4 d5 d6 d7 :
  let s := state_of (SR3W_new_pins data clk strobe En Rw Rs d4 d5 d6 d7 s0) in
  _Rs s = _En s /\ _En s = u8 (Z.shiftl 1 En).
Proof. cbv zeta. split; reflexivity. Qed.

(** C4.  The constructor with a custom pin mapping, called with Enable at
    bit 4, Read/Write at bit 5, Register-Select at bit 6 and D4-D7 at bits
    0-3, stores [1 << 4] as Register-Select mask, the mask of Enable, and
    not [1 << 6]: its [Rs] argument is not used, while the constructor with
    the default mapping stores [1 << RS] for the same positions. *)
Theorem custom_constructor_drops_Rs s0 data clk strobe :
  let s := state_of (SR3W_new_pins data clk strobe 4 5 6 0 1 2 3 s0) in
  _Rs s = 16 /\ _En s = 16 /\ _Rs s <> Z.shiftl 1 6
  /\ _Rs (state_of (SR3W_new data clk strobe s0)) = Z.shiftl 1 RS.
Proof. cbv zeta. repeat split. discriminate. Qed.

(** ** The backlight status across transfers *)

Lemma loads_app t1 t2 : loads (t1 ++ t2) = loads t1 ++ loads t2.
Proof.
  induction t1 as [| e t1 IH]; [ reflexivity | ].
  destruct e; cbn [loads app]; now rewrite IH.
Qed.

Lemma trace_of_bind {A B} (m : M A) (k : A -> M B) s :
  trace_of (bind m k s)
  = trace_of (m s) ++ trace_of (k (result (m s)) (state_of (m s))).
Proof.
  unfold bind, trace_of, result, state_of.
  destruct (m s) as [[a s1] t1]. cbn [fst snd].
  destruct (k a s1) as [[b s2] t2]. reflexivity.
Qed.

Lemma state_of_bind {A B} (m : M A) (k : A -> M B) s :
  state_of (bind m k s) = state_of (k (result (m s)) (state_of (m s))).
Proof.
  unfold bind, result, state_of.
  destruct (m s) as [[a s1] t1]. cbn [fst snd].
  destruct (k a s1) as [[b s2] t2]. reflexivity.
Qed.

Lemma same_wiring_refl s : same_wiring s s.
Proof. repeat split. Qed.

Lemma same_wiring_trans s1 s2 s3 :
  same_wiring s1 s2 -> same_wiring s2 s3 -> same_wiring s1 s3.
Proof.
  unfold same_wiring. intros (A1 & A2 & A3 & A4 & A5) (B1 & B2 & B3 & B4 & B5).
  repeat split; congruence.
Qed.

Lemma send_state value mode s : state_of (send value mode s) = s.
Proof. unfold send. destruct (mode =? FOUR_BITS); reflexivity. Qed.

(** Only [setBacklight] and [init] assign [_backlightStsMask]; none of the
    operations of [op] does, and none touches the LCD signal masks. *)
Lemma run_op_same_wiring o s : same_wiring s (state_of (run_op o s)).
Proof.
  destruct o as [v m | v m | v pol]; cbn [run_op].
  - rewrite send_state. apply same_wiring_refl.
  - rewrite write4bits_state. apply same_wiring_refl.
  - repeat split.
Qed.

Lemma run_ops_same_wiring l : forall s, same_wiring s (state_of (run_ops l s)).
Proof.
  induction l as [| o l IH]; intros s; cbn [run_ops].
  - apply same_wiring_refl.
  - rewrite state_of_bind.
    eapply same_wiring_trans; [ apply run_op_same_wiring | apply IH ].
Qed.

Lemma unused_bit_same_wiring p s s' :
  same_wiring s s' -> unused_bit p s -> unused_bit p s'.
Proof.
  intros (A1 & _ & A3 & A4 & _) (U1 & U2 & U3).
  unfold unused_bit. now rewrite A1, A3, A4.
Qed.

Lemma mapped_bit_unused p pins n : forall i value,
  Forall (fun m => Z.testbit m p = false) pins ->
  mapped_bit n i value pins p = false.
Proof.
  intros i value Hpins. revert i value.
  induction n as [| n IH]; intros i value; cbn [mapped_bit]; [ reflexivity | ].
  rewrite IH, orb_false_r.
  destruct (nth_in_or_default i pins 0) as [Hin | ->].
  - rewrite Forall_forall in Hpins. rewrite (Hpins _ Hin). apply andb_false_r.
  - rewrite Z.bits_0. apply andb_false_r.
Qed.

Lemma composed_unused_bit s p value mode :
  0 <= p < 8 ->
  unused_bit p s ->
  COMMAND = 0 ->
  mode = COMMAND \/ mode = DATA ->
  Z.testbit (composed value mode s) p = Z.testbit (_backlightStsMask s) p.
Proof.
  intros Hp (_ & URs & Upins) HC Hmode. unfold composed.
  rewrite u8_testbit, !Z.lor_spec, map_pins_testbit by exact Hp.
  rewrite (mapped_bit_unused p _ 4 0%nat value Upins), Z.bits_0.
  replace (p <? 8) with true by (symmetry; apply Z.ltb_lt; lia).
  cbn [andb orb].
  destruct (Z.eqb_spec mode DATA) as [E | E].
  - now rewrite URs.
  - destruct Hmode as [-> | ->]; [ | congruence ].
    now rewrite HC, Z.bits_0.
Qed.

(** At an unused position, every byte [write4bits] loads shows the stored
    backlight status bit. *)
Lemma write4bits_unused_bit s p value mode b :
  0 <= p < 8 ->
  unused_bit p s ->
  COMMAND = 0 ->
  mode = COMMAND \/ mode = DATA ->
  In b (loads (trace_of (write4bits value mode s))) ->
  Z.testbit b p = Z.testbit (_backlightStsMask s) p.
Proof.
  intros Hp U HC Hmode Hin. rewrite write4bits_loads in Hin.
  pose proof (composed_unused_bit s p value mode Hp U HC Hmode) as Hc.
  destruct U as (UEn & _).
  assert (Hlt : (p <? 8) = true) by (apply Z.ltb_lt; lia).
  destruct Hin as [<- | [<- | []]].
  - now rewrite u8_testbit, Z.lor_spec, Hlt, UEn, orb_false_r.
  - rewrite u8_testbit, Z.land_spec, Z.lnot_spec, Hlt, UEn by lia.
    now rewrite andb_true_r.
Qed.

Lemma send_unused_bit s p value mode b :
  0 <= p < 8 ->
  unused_bit p s ->
  COMMAND = 0 ->
  mode = COMMAND \/ mode = DATA \/ mode = FOUR_BITS ->
  In b (loads (trace_of (send value mode s))) ->
  Z.testbit b p = Z.testbit (_backlightStsMask s) p.
Proof.
  intros Hp U HC Hmode. unfold send.
  destruct (Z.eqb_spec mode FOUR_BITS) as [E | E].
  - apply write4bits_unused_bit; auto.
  - assert (Hm : mode = COMMAND \/ mode = DATA)
      by (destruct Hmode as [H | [H | H]]; auto; congruence).
    rewrite trace_of_bind, loads_app. intros Hin.
    apply in_app_or in Hin. destruct Hin as [Hin | Hin].
    + revert Hin. apply write4bits_unused_bit; auto.
    + rewrite write4bits_state in Hin. revert Hin.
      apply write4bits_unused_bit; auto.
Qed.

Lemma run_ops_unused_bit p l : forall s b,
  0 <= p < 8 ->
  unused_bit p s ->
  COMMAND = 0 ->
  Forall valid_op l ->
  In b (loads (trace_of (run_ops l s))) ->
  Z.testbit b p = Z.testbit (_backlightStsMask s) p.
Proof.
  induction l as [| o l IH]; intros s b Hp U HC Hl Hin; cbn [run_ops] in Hin.
  - destruct Hin.
  - inversion Hl as [| o' l' Ho Hl' ]; subst o' l'.
    rewrite trace_of_bind, loads_app in Hin.
    apply in_app_or in Hin. destruct Hin as [Hin | Hin].
    + destruct o as [v m | v m | v pol]; cbn [run_op valid_op] in Hin, Ho.
      * revert Hin. apply send_unused_bit; assumption.
      * revert Hin. apply write4bits_unused_bit; assumption.
      * destruct Hin.
    + pose proof (run_op_same_wiring o s) as Hsame.
      rewrite (IH _ b Hp (unused_bit_same_wiring _ _ _ Hsame U) HC Hl' Hin).
      destruct Hsame as (_ & _ & _ & _ & E). now rewrite E.
Qed.

Lemma bit_is_u8 p : 0 <= p < 8 -> is_u8 (Z.shiftl 1 p).
Proof.
  intros Hp. unfold is_u8. rewrite Z.shiftl_1_l. change 256 with (2 ^ 8).
  split; [ apply Z.pow_nonneg; lia | apply Z.pow_lt_mono_r; lia ].
Qed.

Lemma setBacklightPin_run p pol s :
  setBacklightPin p pol s
  = (tt, set_polarity pol (set_backlightPinMask (u8 (Z.shiftl 1 p)) s), []).
Proof. reflexivity. Qed.

(** The status that [setBacklight v] stores on a driver whose backlight was
    configured at position [p] with polarity POSITIVE. *)
Lemma setBacklight_after_pin s p v :
  0 <= p < 8 -> 0 <= v ->
  let s1 := state_of (setBacklightPin p POSITIVE s) in
  let s2 := state_of (setBacklight v s1) in
  same_wiring (set_backlightStsMask (_backlightStsMask s2) s) s2
  /\ _backlightStsMask s2 = if 0 <? v then Z.shiftl 1 p else 0.
Proof.
  intros Hp Hv s1 s2. subst s1 s2. rewrite setBacklightPin_run.
  cbn [state_of fst snd].
  pose proof (bit_is_u8 p Hp) as Hu8.
  pose proof (bit_nonzero p (proj1 Hp)) as Hnz.
  destruct (setBacklight_run v
              (set_polarity POSITIVE (set_backlightPinMask (u8 (Z.shiftl 1 p)) s)))
    as [Hs _].
  { cbn [_backlightPinMask set_polarity set_backlightPinMask].
    now rewrite u8_id. }
  rewrite Hs.
  cbn [_backlightPinMask _polarity _backlightStsMask set_backlightStsMask
       set_polarity set_backlightPinMask t_backlighPol_eqb andb orb].
  rewrite orb_false_r, (u8_id _ Hu8), land_LCD_BACKLIGHT, land_LCD_NOBACKLIGHT
    by exact Hu8.
  split; [ repeat split | ].
  rewrite Z.gtb_ltb. reflexivity.
Qed.

(** C5.  Let the backlight be configured by [setBacklightPin p POSITIVE] at
    a bit position [p] that no LCD signal mask of the driver uses.  After
    [setBacklight v], every byte loaded by the following [send],
    [write4bits] and [setBacklightPin] operations has bit [p] set when
    [v > 0] and clear when [v = 0]; and these operations, in any number and
    order and on any driver object, leave the stored backlight status mask
    as it was. *)
Theorem backlight_status_persists s p v ops :
  0 <= p < 8 ->
  unused_bit p s ->
  COMMAND = 0 ->
  is_u8 v ->
  Forall valid_op ops ->
  let s1 := state_of (setBacklightPin p POSITIVE s) in
  let s2 := state_of (setBacklight v s1) in
  (0 < v -> forall b, In b (loads (trace_of (run_ops ops s2))) -> Z.testbit b p = true)
  /\ (v = 0 -> forall b, In b (loads (trace_of (run_ops ops s2))) -> Z.testbit b p = false)
  /\ (forall s' ops',
        _backlightStsMask (state_of (run_ops ops' s')) = _backlightStsMask s').
Proof.
  intros Hp U HC Hv Hops s1 s2.
  destruct (setBacklight_after_pin s p v Hp (proj1 Hv)) as [Hsame Hsts].
  fold s1 s2 in Hsame, Hsts.
  assert (U2 : unused_bit p s2).
  { apply (unused_bit_same_wiring _ _ _ Hsame). exact U. }
  assert (Hbit : forall b, In b (loads (trace_of (run_ops ops s2))) ->
                   Z.testbit b p = Z.testbit (_backlightStsMask s2) p).
  { intros b. apply run_ops_unused_bit; assumption. }
  repeat split.
  - intros Hpos b Hin. rewrite (Hbit b Hin), Hsts.
    apply Z.ltb_lt in Hpos. rewrite Hpos, bit_testbit by apply Hp.
    apply Z.eqb_refl.
  - intros -> b Hin. rewrite (Hbit b Hin), Hsts. cbn. apply Z.bits_0.
  - intros s' ops'. apply (run_ops_same_wiring ops' s').
Qed.

(** ** The shape of every trace *)

Lemma same_lines_refl s : same_lines s s.
Proof. repeat split. Qed.

Lemma same_lines_trans s1 s2 s3 :
  same_lines s1 s2 -> same_lines s2 s3 -> same_lines s1 s3.
Proof.
  unfold same_lines.
  intros (A1 & A2 & A3 & A4 & A5 & A6) (B1 & B2 & B3 & B4 & B5 & B6).
  repeat split; congruence.
Qed.

Lemma render_same_lines s s' it : same_lines s s' -> render s' it = render s it.
Proof.
  intros (A1 & A2 & A3 & A4 & A5 & A6). destruct it as [v m | b]; cbn [render].
  - reflexivity.
  - now rewrite A1, A2, A3, A4, A5, A6.
Qed.

Lemma flat_map_render_same_lines s s' its :
  same_lines s s' -> flat_map (render s') its = flat_map (render s) its.
Proof.
  intros H. induction its as [| it its IH]; cbn [flat_map]; [ reflexivity | ].
  now rewrite IH, (render_same_lines s s' it H).
Qed.

Lemma write4bits_items value mode s :
  trace_of (write4bits value mode s)
  = flat_map (render s)
      [ I_nibble value mode;
        I_load (u8 (Z.lor (composed value mode s) (_En s)));
        I_load (u8 (Z.land (composed value mode s) (Z.lnot (_En s)))) ].
Proof. reflexivity. Qed.

Lemma send_items value mode s :
  exists its, trace_of (send value mode s) = flat_map (render s) its.
Proof.
  unfold send. destruct (mode =? FOUR_BITS).
  - eexists. apply write4bits_items.
  - eexists. rewrite trace_of_bind, write4bits_state, !write4bits_items.
    rewrite <- flat_map_app. reflexivity.
Qed.

Lemma setBacklight_items value s :
  exists its, trace_of (setBacklight value s) = flat_map (render s) its.
Proof.
  unfold setBacklight, bind, get. destruct (_backlightPinMask s =? 0); cbn [negb].
  - exists []. reflexivity.
  - destruct (t_backlighPol_eqb (_polarity s) POSITIVE && (value >? 0)
              || t_backlighPol_eqb (_polarity s) NEGATIVE && (value =? 0));
      eexists [ I_load _ ]; reflexivity.
Qed.

Lemma setBacklight_same_lines value s :
  same_lines s (state_of (setBacklight value s)).
Proof.
  unfold setBacklight, bind, get. destruct (_backlightPinMask s =? 0); cbn [negb].
  - apply same_lines_refl.
  - destruct (t_backlighPol_eqb (_polarity s) POSITIVE && (value >? 0)
              || t_backlighPol_eqb (_polarity s) NEGATIVE && (value =? 0));
      repeat split.
Qed.

Lemma run_api_same_lines c s : same_lines s (state_of (run_api c s)).
Proof.
  destruct c as [v m | v pol | v]; cbn [run_api].
  - rewrite send_state. apply same_lines_refl.
  - repeat split.
  - apply setBacklight_same_lines.
Qed.

Lemma run_api_items c s :
  exists its, trace_of (run_api c s) = flat_map (render s) its.
Proof.
  destruct c as [v m | v pol | v]; cbn [run_api].
  - apply send_items.
  - exists []. reflexivity.
  - apply setBacklight_items.
Qed.

Lemma run_apis_items l : forall s,
  exists its, trace_of (run_apis l s) = flat_map (render s) its.
Proof.
  induction l as [| c l IH]; intros s; cbn [run_apis].
  - exists []. reflexivity.
  - destruct (run_api_items c s) as [its1 E1].
    destruct (IH (state_of (run_api c s))) as [its2 E2].
    exists (its1 ++ its2).
    rewrite trace_of_bind, E1, E2, flat_map_app.
    now rewrite (flat_map_render_same_lines s _ its2 (run_api_same_lines c s)).
Qed.

Lemma follow_app s t1 : forall t2 st,
  follow s (t1 ++ t2) st
  = match follow s t1 st with
    | Some st' => follow s t2 st'
    | None => None
    end.
Proof.
  induction t1 as [| e t1 IH]; intros t2 st; cbn [follow app]; [ reflexivity | ].
  destruct (line_step s st e); [ apply IH | reflexivity ].
Qed.

Lemma follow_render s it : follow s (render s it) (false, false) = Some (false, false).
Proof.
  destruct it as [v m | b]; cbn [render follow line_step]; [ reflexivity | ].
  rewrite !Z.eqb_refl. reflexivity.
Qed.

Lemma follow_items s its :
  follow s (flat_map (render s) its) (false, false) = Some (false, false).
Proof.
  induction its as [| it its IH]; cbn [flat_map]; [ reflexivity | ].
  now rewrite follow_app, follow_render.
Qed.

Lemma requested_delay_app t1 t2 :
  requested_delay (t1 ++ t2) = requested_delay t1 + requested_delay t2.
Proof.
  induction t1 as [| e t1 IH]; [ reflexivity | ].
  destruct e; cbn [requested_delay app]; rewrite IH; lia.
Qed.

Lemma shifted_app t1 t2 : shifted (t1 ++ t2) = shifted t1 ++ shifted t2.
Proof.
  induction t1 as [| e t1 IH]; [ reflexivity | ].
  destruct e; cbn [shifted app]; now rewrite IH.
Qed.

Lemma items_delay s its :
  requested_delay (flat_map (render s) its)
  = 41 * Z.of_nat (length (loads (flat_map (render s) its))).
Proof.
  induction its as [| it its IH]; cbn [flat_map]; [ reflexivity | ].
  rewrite requested_delay_app, loads_app, length_app, IH.
  destruct it as [v m | b]; cbn [render requested_delay loads length]; lia.
Qed.

Lemma items_shifted s its :
  shifted (flat_map (render s) its)
  = map (fun b => (b, MSBFIRST)) (loads (flat_map (render s) its)).
Proof.
  induction its as [| it its IH]; cbn [flat_map]; [ reflexivity | ].
  rewrite shifted_app, loads_app, map_app, IH.
  destruct it as [v m | b]; reflexivity.
Qed.

(** X1.  Whatever calls to [send], [setBacklightPin] and [setBacklight] are
    made, in whatever order and on whatever driver object, bytes are shifted
    out only on the driver's own data and clock lines and only while the
    strobe is low and interrupts are enabled; the strobe line of the driver
    is raised and lowered only inside the critical section; and at the end
    the strobe is low and the critical section is closed. *)
Theorem api_strobe_protocol calls s :
  follow s (trace_of (run_apis calls s)) (false, false) = Some (false, false).
Proof.
  destruct (run_apis_items calls s) as [its E]. rewrite E. apply follow_items.
Qed.

(** X2.  Over any sequence of public calls the delay routine is asked for
    41 microseconds per shift-register load (1 during the strobe pulse and
    40 after it), and for nothing else. *)
Theorem api_delay_per_load calls s :
  requested_delay (trace_of (run_apis calls s))
  = 41 * Z.of_nat (length (loads (trace_of (run_apis calls s)))).
Proof.
  destruct (run_apis_items calls s) as [its E]. rewrite E. apply items_delay.
Qed.

(** X3.  Over any sequence of public calls, the bytes given to the shift-out
    primitive are exactly the bytes handed to [loadSR], in the same order,
    each once and each most-significant-bit first. *)
Theorem api_shifts_every_load calls s :
  shifted (trace_of (run_apis calls s))
  = map (fun b => (b, MSBFIRST)) (loads (trace_of (run_apis calls s))).
Proof.
  destruct (run_apis_items calls s) as [its E]. rewrite E. apply items_shifted.
Qed.

(** X4.  [send] loads the shift register twice when the mode is FOUR_BITS
    and four times for every other mode value, valid or not, and leaves the
    driver object as it was. *)
Theorem send_load_count value mode s :
  length (loads (trace_of (send value mode s)))
  = (if mode =? FOUR_BITS then 2%nat else 4%nat)
  /\ state_of (send value mode s) = s.
Proof.
  unfold send. destruct (mode =? FOUR_BITS); split; reflexivity.
Qed.

(** ** Nibbles and values out of range *)

Lemma map_pins_low_bits n : forall i v v' acc pins,
  (forall k, 0 <= k < Z.of_nat n -> Z.testbit v k = Z.testbit v' k) ->
  map_pins n i v acc pins = map_pins n i v' acc pins.
Proof.
  induction n as [| n IH]; intros i v v' acc pins Hbits; cbn [map_pins];
    [ reflexivity | ].
  rewrite !low_bit_test, (Hbits 0) by lia.
  apply IH. intros k Hk. rewrite !Z.shiftr_spec by lia. apply Hbits. lia.
Qed.

Lemma composed_low_nibble value mode s :
  composed value mode s = composed (Z.land value 0x0F) mode s.
Proof.
  unfold composed. f_equal. f_equal. apply map_pins_low_bits.
  intros k Hk. change 0x0F with (Z.ones 4).
  rewrite Z.land_spec, Z.testbit_ones_nonneg by lia.
  replace (k <? 4) with true by (symmetry; apply Z.ltb_lt; lia).
  now rewrite andb_true_r.
Qed.

(** X5.  [write4bits] looks at the low four bits of its value only: a value
    and its low nibble load the same two bytes and put the same signals on
    the lines, on every driver and for every mode. *)
Theorem write4bits_low_nibble value mode s :
  loads (trace_of (write4bits value mode s))
  = loads (trace_of (write4bits (Z.land value 0x0F) mode s))
  /\ wire (trace_of (write4bits value mode s))
     = wire (trace_of (write4bits (Z.land value 0x0F) mode s)).
Proof.
  rewrite !write4bits_items, <- composed_low_nibble. split; reflexivity.
Qed.

Lemma u8_bit_high p : 8 <= p -> u8 (Z.shiftl 1 p) = 0.
Proof.
  intros Hp. apply Z.bits_inj'. intros j Hj.
  rewrite u8_testbit, bit_testbit, Z.bits_0 by lia.
  destruct (Z.ltb_spec j 8); [ | reflexivity ].
  cbn [andb]. apply Z.eqb_neq. lia.
Qed.

Lemma u8_idem x : u8 (u8 x) = u8 x.
Proof. apply u8_id, u8_range. Qed.

Lemma composed_u8 value mode s : u8 (composed value mode s) = composed value mode s.
Proof. unfold composed. apply u8_idem. Qed.

(** X6.  An Enable position of 8 to 15 given to the custom-mapping
    constructor leaves the Enable mask zero, and then [write4bits] loads the
    same byte twice: no Enable pulse reaches the LCD. *)
Theorem enable_out_of_range s0 data clk strobe En Rw Rs d4 d5 d6 d7 value mode :
  8 <= En < 16 ->
  let s := state_of (SR3W_new_pins data clk strobe En Rw Rs d4 d5 d6 d7 s0) in
  _En s = 0
  /\ exists b, loads (trace_of (write4bits value mode s)) = [b; b].
Proof.
  intros HEn s.
  assert (E : _En s = 0) by (subst s; cbn; apply u8_bit_high; lia).
  split; [ exact E | ].
  exists (composed value mode s).
  rewrite write4bits_loads, E, Z.lor_0_r. change (Z.lnot 0) with (-1).
  now rewrite Z.land_m1_r, composed_u8.
Qed.

(** X7.  A backlight position of 8 to 15 given to [setBacklightPin] leaves
    the backlight pin mask zero, so the backlight counts as not configured
    and a following [setBacklight] does nothing. *)
Theorem setBacklightPin_out_of_range s value pol level :
  8 <= value < 16 ->
  let s' := state_of (setBacklightPin value pol s) in
  _backlightPinMask s' = 0
  /\ setBacklight level s' = (tt, s', []).
Proof.
  intros Hv s'.
  assert (E : _backlightPinMask s' = 0) by (subst s'; cbn; apply u8_bit_high; lia).
  split; [ exact E | apply setBacklight_no_pin; exact E ].
Qed.

(** ** What the constructors establish *)

(** X8.  The two constructors with the default mapping build a driver with
    Enable at bit 4, Read/Write at bit 5, Register-Select at bit 6 and D4-D7
    at bits 0-3, all different, and with a backlight status that touches none
    of them. *)
Theorem default_constructors_wired s0 data clk strobe backlighPin pol :
  let s := state_of (SR3W_new data clk strobe s0) in
  let s' := state_of (SR3W_new_backlight data clk strobe backlighPin pol s0) in
  wired s 4 5 6 0 1 2 3 /\ backlight_apart s 4 5 6 0 1 2 3
  /\ wired s' 4 5 6 0 1 2 3 /\ backlight_apart s' 4 5 6 0 1 2 3.
Proof.
  cbv zeta. repeat split.
Qed.

(** X9.  Called with positions between 0 and 7, the custom-mapping
    constructor stores the Enable, Read/Write and data masks as the single
    bits of the positions given. *)
Theorem custom_constructor_masks s0 data clk strobe En Rw Rs d4 d5 d6 d7 :
  0 <= En < 8 -> 0 <= Rw < 8 ->
  0 <= d4 < 8 -> 0 <= d5 < 8 -> 0 <= d6 < 8 -> 0 <= d7 < 8 ->
  let s := state_of (SR3W_new_pins data clk strobe En Rw Rs d4 d5 d6 d7 s0) in
  _En s = Z.shiftl 1 En /\ _Rw s = Z.shiftl 1 Rw
  /\ _data_pins s = [ Z.shiftl 1 d4; Z.shiftl 1 d5; Z.shiftl 1 d6; Z.shiftl 1 d7 ].
Proof.
  intros HEn HRw H4 H5 H6 H7 s. subst s. cbn.
  rewrite !u8_id by (apply bit_is_u8; assumption).
  repeat split.
Qed.

Lemma default_bytes n rs :
  0 <= n < 16 -> rs = 0 \/ rs = 0x40 ->
  let c := u8 (Z.lor (map_pins 4 0 n 0 [1; 2; 4; 8]) (Z.lor rs 0)) in
  u8 (Z.lor c 0x10) = n + rs + 0x10 /\ u8 (Z.land c (Z.lnot 0x10)) = n + rs.
Proof.
  intros Hn Hrs.
  assert (Hin : In n [0; 1; 2; 3; 4; 5; 6; 7; 8; 9; 10; 11; 12; 13; 14; 15])
    by (cbn [In]; lia).
  repeat (destruct Hin as [<- | Hin];
          [ destruct Hrs as [-> | ->]; split; reflexivity | ]).
  destruct Hin.
Qed.

Lemma write4bits_default_loads s0 data clk strobe n mode :
  COMMAND = 0 ->
  mode = COMMAND \/ mode = DATA ->
  0 <= n < 16 ->
  let s := state_of (SR3W_new data clk strobe s0) in
  let rs := if mode =? DATA then 0x40 else 0 in
  loads (trace_of (write4bits n mode s)) = [ n + rs + 0x10; n + rs ].
Proof.
  intros HC Hmode Hn s rs. rewrite write4bits_loads. unfold composed.
  change (_data_pins s) with [1; 2; 4; 8]. change (_En s) with 0x10.
  change (_Rs s) with 0x40. change (_backlightStsMask s) with 0.
  assert (E : (if mode =? DATA then 0x40 else mode) = rs).
  { subst rs. destruct (Z.eqb_spec mode DATA); [ reflexivity | ].
    destruct Hmode; congruence. }
  rewrite E.
  assert (Hrs : rs = 0 \/ rs = 0x40) by (subst rs; destruct (mode =? DATA); auto).
  destruct (default_bytes n rs Hn Hrs) as [-> ->]. reflexivity.
Qed.

(** X10.  On a driver built by the three-argument constructor, [send v mode]
    with [mode] COMMAND or DATA loads four bytes: the high nibble of [v] in
    bits 0-3 with Enable (0x10) set, the same with Enable clear, then the low
    nibble likewise; bit 6 (0x40) is set in all four for DATA and in none for
    COMMAND. *)
Theorem send_on_default_driver s0 data clk strobe v mode :
  is_u8 v ->
  COMMAND = 0 ->
  mode = COMMAND \/ mode = DATA ->
  FOUR_BITS <> COMMAND -> FOUR_BITS <> DATA ->
  let s := state_of (SR3W_new data clk strobe s0) in
  let rs := if mode =? DATA then 0x40 else 0 in
  loads (trace_of (send v mode s))
  = [ Z.shiftr v 4 + rs + 0x10; Z.shiftr v 4 + rs;
      Z.land v 0x0F + rs + 0x10; Z.land v 0x0F + rs ].
Proof.
  intros Hv HC Hmode HFC HFD s rs. unfold send.
  assert (E : (mode =? FOUR_BITS) = false).
  { apply Z.eqb_neq. destruct Hmode; congruence. }
  rewrite E, high_nibble_u8, low_nibble_u8 by exact Hv.
  rewrite trace_of_bind, loads_app, write4bits_state.
  assert (Hhi : 0 <= Z.shiftr v 4 < 16).
  { unfold is_u8 in Hv. rewrite Z.shiftr_div_pow2 by lia. change (2 ^ 4) with 16.
    split; [ apply Z.div_pos; lia | apply Z.div_lt_upper_bound; lia ]. }
  assert (Hlo : 0 <= Z.land v 0x0F < 16).
  { change 0x0F with (Z.ones 4). rewrite Z.land_ones by lia.
    apply Z.mod_pos_bound. lia. }
  subst s.
  rewrite (write4bits_default_loads s0 data clk strobe _ mode HC Hmode Hhi).
  rewrite (write4bits_default_loads s0 data clk strobe _ mode HC Hmode Hlo).
  reflexivity.
Qed.

(** ** More on the backlight *)

Lemma setBacklight_after_pin_negative s p v :
  0 <= p < 8 ->
  let s1 := state_of (setBacklightPin p NEGATIVE s) in
  let s2 := state_of (setBacklight v s1) in
  same_wiring (set_backlightStsMask (_backlightStsMask s2) s) s2
  /\ _backlightStsMask s2 = if v =? 0 then Z.shiftl 1 p else 0.
Proof.
  intros Hp s1 s2. subst s1 s2. rewrite setBacklightPin_run.
  cbn [state_of fst snd].
  pose proof (bit_is_u8 p Hp) as Hu8.
  pose proof (bit_nonzero p (proj1 Hp)) as Hnz.
  destruct (setBacklight_run v
              (set_polarity NEGATIVE (set_backlightPinMask (u8 (Z.shiftl 1 p)) s)))
    as [Hs _].
  { cbn [_backlightPinMask set_polarity set_backlightPinMask].
    now rewrite u8_id. }
  rewrite Hs.
  cbn [_backlightPinMask _polarity _backlightStsMask set_backlightStsMask
       set_polarity set_backlightPinMask t_backlighPol_eqb andb orb].
  rewrite (u8_id _ Hu8), land_LCD_BACKLIGHT, land_LCD_NOBACKLIGHT by exact Hu8.
  split; [ repeat split | reflexivity ].
Qed.

(** X11.  With the backlight configured by [setBacklightPin p NEGATIVE] at a
    bit position [p] that no LCD signal mask uses, the sense is inverted:
    after [setBacklight 0] every byte loaded by the following [send],
    [write4bits] and [setBacklightPin] operations has bit [p] set, and after
    [setBacklight v] with [v > 0] every such byte has it clear. *)
Theorem backlight_negative_polarity s p v ops :
  0 <= p < 8 ->
  unused_bit p s ->
  COMMAND = 0 ->
  is_u8 v ->
  Forall valid_op ops ->
  let s1 := state_of (setBacklightPin p NEGATIVE s) in
  let s2 := state_of (setBacklight v s1) in
  (v = 0 -> forall b, In b (loads (trace_of (run_ops ops s2))) -> Z.testbit b p = true)
  /\ (0 < v -> forall b, In b (loads (trace_of (run_ops ops s2))) -> Z.testbit b p = false).
Proof.
  intros Hp U HC Hv Hops s1 s2.
  destruct (setBacklight_after_pin_negative s p v Hp) as [Hsame Hsts].
  fold s1 s2 in Hsame, Hsts.
  assert (U2 : unused_bit p s2).
  { apply (unused_bit_same_wiring _ _ _ Hsame). exact U. }
  assert (Hbit : forall b, In b (loads (trace_of (run_ops ops s2))) ->
                   Z.testbit b p = Z.testbit (_backlightStsMask s2) p).
  { intros b. apply run_ops_unused_bit; assumption. }
  split.
  - intros E b Hin. rewrite (Hbit b Hin), Hsts, E. cbn [Z.eqb].
    rewrite bit_testbit by apply Hp. apply Z.eqb_refl.
  - intros Hpos b Hin. rewrite (Hbit b Hin), Hsts.
    replace (v =? 0) with false by (symmetry; apply Z.eqb_neq; lia).
    apply Z.bits_0.
Qed.

(** X12.  [setBacklight] tells zero from non-zero and nothing more: two
    levels of the same kind give the same driver object and the same
    trace. *)
Theorem setBacklight_zero_or_not s v w :
  is_u8 v -> is_u8 w -> (v = 0 <-> w = 0) ->
  setBacklight v s = setBacklight w s.
Proof.
  unfold is_u8. intros Hv Hw Hvw. unfold setBacklight, bind, get.
  assert (E0 : (v =? 0) = (w =? 0)).
  { destruct (Z.eqb_spec v 0) as [E | E], (Z.eqb_spec w 0) as [F | F];
      try reflexivity; exfalso.
    - apply F, Hvw, E.
    - apply E, Hvw, F. }
  assert (E1 : (v >? 0) = (w >? 0)).
  { rewrite !Z.gtb_ltb.
    destruct (Z.ltb_spec 0 v), (Z.ltb_spec 0 w); try reflexivity; exfalso; lia. }
  now rewrite E0, E1.
Qed.

(** X13.  Of two [setBacklight] calls in a row the second decides: the
    driver object is the one the second call alone would have left, and the
    second call loads the byte it would have loaded alone. *)
Theorem setBacklight_last_wins s v w :
  let s1 := state_of (setBacklight w s) in
  state_of (setBacklight v s1) = state_of (setBacklight v s)
  /\ loads (trace_of (setBacklight v s1)) = loads (trace_of (setBacklight v s)).
Proof.
  intros s1. subst s1.
  destruct (Z.eq_dec (_backlightPinMask s) 0) as [E | E].
  - rewrite (setBacklight_no_pin w s E). cbn [state_of fst snd]. split; reflexivity.
  - destruct (setBacklight_run w s E) as [Hw _]. rewrite Hw.
    destruct (setBacklight_run v s E) as [Hs Hl].
    destruct (setBacklight_run v (set_backlightStsMask
                (if t_backlighPol_eqb (_polarity s) POSITIVE && (w >? 0)
                    || t_backlighPol_eqb (_polarity s) NEGATIVE && (w =? 0)
                 then u8 (Z.land (_backlightPinMask s) LCD_BACKLIGHT)
                 else u8 (Z.land (_backlightPinMask s) LCD_NOBACKLIGHT)) s) E)
      as [Hs' Hl'].
    rewrite Hs, Hl, Hs', Hl'. split; reflexivity.
Qed.

(** X14.  When the backlight bit is not the Enable bit, the byte that
    [setBacklight] loads has Enable clear: the call raises no Enable pulse
    of its own. *)
Theorem setBacklight_keeps_enable_low s level b :
  is_u8 (_backlightPinMask s) ->
  Z.land (_backlightPinMask s) (_En s) = 0 ->
  In b (loads (trace_of (setBacklight level s))) ->
  Z.land b (_En s) = 0.
Proof.
  intros Hu8 Hdisj Hin.
  destruct (Z.eq_dec (_backlightPinMask s) 0) as [E | E].
  - rewrite (setBacklight_no_pin level s E) in Hin. destruct Hin.
  - destruct (setBacklight_run level s E) as [_ Hl]. rewrite Hl in Hin.
    rewrite land_LCD_BACKLIGHT, land_LCD_NOBACKLIGHT in Hin by exact Hu8.
    destruct Hin as [<- | []].
    destruct (t_backlighPol_eqb (_polarity s) POSITIVE && (level >? 0)
              || t_backlighPol_eqb (_polarity s) NEGATIVE && (level =? 0));
      [ exact Hdisj | reflexivity ].
Qed.

(** ** Modes that are not checked *)

(** X15.  [write4bits] puts a mode other than DATA into the byte as it is:
    every bit of the low eight that is set in such a mode is set in the
    first byte loaded, whatever the pin mapping. *)
Theorem write4bits_mode_leaks s value mode j :
  mode <> DATA ->
  0 <= j < 8 ->
  Z.testbit mode j = true ->
  exists hi lo,
    loads (trace_of (write4bits value mode s)) = [hi; lo]
    /\ Z.testbit hi j = true.
Proof.
  intros Hmode Hj Hbit. eexists. eexists.
  split; [ apply write4bits_loads | ].
  unfold composed. apply Z.eqb_neq in Hmode. rewrite Hmode. cbv iota.
  repeat (rewrite u8_testbit || rewrite Z.lor_spec). rewrite Hbit.
  replace (j <? 8) with true by (symmetry; apply Z.ltb_lt; lia).
  cbn [andb]. now rewrite !orb_true_r.
Qed.

Lemma same_masks_same_loads s value :
  _Rs s = _En s ->
  COMMAND = 0 ->
  loads (trace_of (write4bits value DATA s))
  = loads (trace_of (write4bits value COMMAND s)).
Proof.
  intros HRs HC. rewrite !write4bits_loads. unfold composed.
  rewrite Z.eqb_refl, HRs.
  assert (E : (if COMMAND =? DATA then _En s else COMMAND)
              = if COMMAND =? DATA then _En s else 0).
  { destruct (COMMAND =? DATA); [ reflexivity | exact HC ]. }
  rewrite E. clear E.
  f_equal; [ | f_equal ]; apply Z.bits_inj'; intros j Hj;
    rewrite ?u8_testbit, ?Z.land_spec, ?Z.lor_spec, ?Z.lnot_spec, ?u8_testbit,
            ?Z.lor_spec by exact Hj;
    destruct (COMMAND =? DATA); rewrite ?Z.bits_0;
    destruct (j <? 8), (Z.testbit (map_pins 4 0 value 0 (_data_pins s)) j),
             (Z.testbit (_En s) j), (Z.testbit (_backlightStsMask s) j);
    reflexivity.
Qed.

(** X16.  On a driver built by the custom-mapping constructor, whatever
    positions it was given, [send v DATA] loads byte for byte what
    [send v COMMAND] loads: the Register-Select mask it stores is the Enable
    mask, so the two modes cannot be told apart on the shift register. *)
Theorem custom_driver_data_as_command s0 data clk strobe En Rw Rs d4 d5 d6 d7 v :
  COMMAND = 0 ->
  FOUR_BITS <> COMMAND -> FOUR_BITS <> DATA ->
  let s := state_of (SR3W_new_pins data clk strobe En Rw Rs d4 d5 d6 d7 s0) in
  loads (trace_of (send v DATA s)) = loads (trace_of (send v COMMAND s)).
Proof.
  intros HC HFC HFD s. unfold send.
  replace (DATA =? FOUR_BITS) with false by (symmetry; apply Z.eqb_neq; congruence).
  replace (COMMAND =? FOUR_BITS) with false by (symmetry; apply Z.eqb_neq; congruence).
  rewrite !trace_of_bind, !loads_app, !write4bits_state.
  assert (HRs : _Rs s = _En s) by reflexivity.
  now rewrite !(same_masks_same_loads s _ HRs HC).
Qed.

End Driver.

(** * The theorems at a concrete driver

    The constants are those of the library's LCD.h (COMMAND 0, DATA 1,
    FOUR_BITS 2; LCD_4BITMODE 0, LCD_1LINE 0, LCD_5x10DOTS 4); pins are
    resolved by the identity, and the shift register hangs on pins 2, 3
    and 4. *)

(** [write4bits 0b0101 DATA] on the default wiring. *)
Lemma write4bits_composes_byte_witness :
  let s := default_driver 0 0 4 (fun pin => pin) (fun pin => pin) 2 3 4 in
  exists hi lo,
    loads (trace_of (write4bits 1 5 1 s)) = [hi; lo]
    /\ _En s <> 0 /\ Z.land hi (_En s) = _En s
    /\ lo = Z.land hi (Z.lnot (_En s))
    /\ forall b, b = hi \/ b = lo ->
         (forall i, (i < 4)%nat ->
            nth i (_data_pins s) 0 <> 0 /\
            Z.land b (nth i (_data_pins s) 0)
            = if Z.testbit 5 (Z.of_nat i) then nth i (_data_pins s) 0 else 0)
         /\ (Z.land b (_Rs s) <> 0 <-> 1 = 1)
         /\ Z.land b (_Rw s) = 0.
Proof.
  intros s.
  apply (write4bits_composes_byte 0 1 s 4 5 6 0 1 2 3 5 1).
  - constructor; reflexivity.
  - reflexivity.
  - reflexivity.
  - lia.
  - right. reflexivity.
Defined.

(** [send 0x41 DATA]. *)
Lemma send_two_nibbles_witness :
  let s := default_driver 0 0 4 (fun pin => pin) (fun pin => pin) 2 3 4 in
  send 0 1 2 0x41 1 s = (write4bits 1 (Z.shiftr 0x41 4) 1 ;; write4bits 1 (Z.land 0x41 0x0F) 1) s
  /\ nibbles (trace_of (send 0 1 2 0x41 1 s)) = [ (4, 1); (1, 1) ].
Proof.
  intros s. apply (send_two_nibbles 0 1 2 s 0x41 1).
  - unfold is_u8. lia.
  - right. reflexivity.
  - discriminate.
  - discriminate.
Defined.

(** [send 0x32 FOUR_BITS]. *)
Lemma send_four_bits_witness :
  let s := default_driver 0 0 4 (fun pin => pin) (fun pin => pin) 2 3 4 in
  send 0 1 2 0x32 2 s = write4bits 1 (Z.land 0x32 0x0F) 0 s
  /\ nibbles (trace_of (send 0 1 2 0x32 2 s)) = [ (2, 0) ]
  /\ forall v', is_u8 v' -> Z.land v' 0x0F = Z.land 0x32 0x0F ->
       send 0 1 2 v' 2 s = send 0 1 2 0x32 2 s.
Proof.
  intros s. apply (send_four_bits 0 1 2 s 0x32). unfold is_u8. lia.
Defined.

(** Backlight at bit 7, switched on, then a character, a re-configuration of
    the backlight pin and a command nibble. *)
Lemma backlight_status_persists_witness :
  let s := default_driver 0 0 4 (fun pin => pin) (fun pin => pin) 2 3 4 in
  let ops := [ Op_send 0x41 1; Op_setBacklightPin 7 NEGATIVE; Op_write4bits 3 0 ] in
  let s2 := state_of (setBacklight 1 (state_of (setBacklightPin 7 POSITIVE s))) in
  (0 < 1 -> forall b, In b (loads (trace_of (run_ops 0 1 2 ops s2))) -> Z.testbit b 7 = true)
  /\ (1 = 0 -> forall b, In b (loads (trace_of (run_ops 0 1 2 ops s2))) -> Z.testbit b 7 = false)
  /\ (forall s' ops',
        _backlightStsMask (state_of (run_ops 0 1 2 ops' s')) = _backlightStsMask s').
Proof.
  intros s ops.
  apply (backlight_status_persists 0 1 2 s 7 1 ops).
  - lia.
  - repeat split; repeat constructor.
  - reflexivity.
  - unfold is_u8. lia.
  - apply Forall_cons; [ right; left; reflexivity | ].
    apply Forall_cons; [ exact I | ].
    apply Forall_cons; [ left; reflexivity | apply Forall_nil ].
Defined.

(** Backlight at bit 7 with polarity NEGATIVE, level 0. *)
Lemma setBacklight_configured_witness :
  let s := state_of (setBacklightPin 7 NEGATIVE
                       (default_driver 0 0 4 (fun pin => pin) (fun pin => pin) 2 3 4)) in
  let r := setBacklight 0 s in
  ((_polarity s = POSITIVE /\ 0 > 0) \/ (_polarity s = NEGATIVE /\ 0 = 0) ->
     _backlightStsMask (state_of r) = _backlightPinMask s)
  /\ (~ ((_polarity s = POSITIVE /\ 0 > 0) \/ (_polarity s = NEGATIVE /\ 0 = 0)) ->
     _backlightStsMask (state_of r) = 0)
  /\ state_of r = set_backlightStsMask (_backlightStsMask (state_of r)) s
  /\ loads (trace_of r) = [ _backlightStsMask (state_of r) ].
Proof.
  intros s. apply (setBacklight_configured s 0); subst s.
  - unfold is_u8. cbn. lia.
  - cbn. discriminate.
Defined.

(** A freshly constructed driver has no backlight bit. *)
Lemma setBacklight_unconfigured_witness :
  let s := default_driver 0 0 4 (fun pin => pin) (fun pin => pin) 2 3 4 in
  setBacklight 1 s = (tt, s, []).
Proof.
  intros s. apply (setBacklight_unconfigured s 1). reflexivity.
Defined.

(** * Traces computed on concrete drivers *)

Example write4bits_0101_DATA :
  loads (trace_of (write4bits 1 5 1
           (default_driver 0 0 4 (fun pin => pin) (fun pin => pin) 2 3 4)))
  = [0x55; 0x45].
Proof. reflexivity. Qed.

Example send_0x41_DATA :
  loads (trace_of (send 0 1 2 0x41 1
           (default_driver 0 0 4 (fun pin => pin) (fun pin => pin) 2 3 4)))
  = [0x54; 0x44; 0x51; 0x41].
Proof. reflexivity. Qed.

Example send_0x41_with_backlight :
  loads (trace_of
    ((setBacklightPin 7 POSITIVE ;; setBacklight 1 ;; send 0 1 2 0x41 1)
       (default_driver 0 0 4 (fun pin => pin) (fun pin => pin) 2 3 4)))
  = [0x80; 0xD4; 0xC4; 0xD1; 0xC1].
Proof. reflexivity. Qed.

(** The same nibble on a driver built by the custom-mapping constructor with
    the very same positions: bit 6 is never raised, and the second byte has
    lost the Register-Select mask together with Enable. *)
Example write4bits_0101_DATA_custom :
  loads (trace_of (write4bits 1 5 1
           (state_of (SR3W_new_pins 0 0 4 (fun pin => pin) (fun pin => pin)
                        2 3 4 4 5 6 0 1 2 3 blank))))
  = [0x15; 0x05].
Proof. reflexivity. Qed.

(** * The further theorems at concrete drivers *)

(** Enable named at position 9. *)
Lemma enable_out_of_range_witness :
  let s := state_of (SR3W_new_pins 0 0 4 (fun pin => pin) (fun pin => pin)
                       2 3 4 9 5 6 0 1 2 3 blank) in
  _En s = 0 /\ exists b, loads (trace_of (write4bits 1 5 1 s)) = [b; b].
Proof.
  apply (enable_out_of_range 1 0 0 4 (fun pin => pin) (fun pin => pin)
           blank 2 3 4 9 5 6 0 1 2 3 5 1).
  lia.
Defined.

(** Backlight named at position 8. *)
Lemma setBacklightPin_out_of_range_witness :
  let s' := state_of (setBacklightPin 8 POSITIVE
                        (default_driver 0 0 4 (fun pin => pin) (fun pin => pin) 2 3 4)) in
  _backlightPinMask s' = 0 /\ setBacklight 1 s' = (tt, s', []).
Proof.
  apply (setBacklightPin_out_of_range
           (default_driver 0 0 4 (fun pin => pin) (fun pin => pin) 2 3 4)
           8 POSITIVE 1).
  lia.
Defined.

(** A custom mapping with Enable at 6, Read/Write at 5 and the data lines
    at bits 3 down to 0. *)
Lemma custom_constructor_masks_witness :
  let s := state_of (SR3W_new_pins 0 0 4 (fun pin => pin) (fun pin => pin)
                       2 3 4 6 5 4 3 2 1 0 blank) in
  _En s = Z.shiftl 1 6 /\ _Rw s = Z.shiftl 1 5
  /\ _data_pins s = [ Z.shiftl 1 3; Z.shiftl 1 2; Z.shiftl 1 1; Z.shiftl 1 0 ].
Proof.
  apply (custom_constructor_masks 0 0 4 (fun pin => pin) (fun pin => pin)
           blank 2 3 4 6 5 4 3 2 1 0); lia.
Defined.

(** [send 0x41 DATA] on the default mapping. *)
Lemma send_on_default_driver_witness :
  let s := state_of (SR3W_new 0 0 4 (fun pin => pin) (fun pin => pin) 2 3 4 blank) in
  let rs := if 1 =? 1 then 0x40 else 0 in
  loads (trace_of (send 0 1 2 0x41 1 s))
  = [ Z.shiftr 0x41 4 + rs + 0x10; Z.shiftr 0x41 4 + rs;
      Z.land 0x41 0x0F + rs + 0x10; Z.land 0x41 0x0F + rs ].
Proof.
  apply (send_on_default_driver 0 1 2 0 0 4 (fun pin => pin) (fun pin => pin)
           blank 2 3 4 0x41 1).
  - unfold is_u8. lia.
  - reflexivity.
  - right. reflexivity.
  - discriminate.
  - discriminate.
Defined.

(** Backlight at bit 7 with polarity NEGATIVE, switched on by level 0. *)
Lemma backlight_negative_polarity_witness :
  let s := default_driver 0 0 4 (fun pin => pin) (fun pin => pin) 2 3 4 in
  let ops := [ Op_send 0x41 1; Op_write4bits 3 0 ] in
  let s2 := state_of (setBacklight 0 (state_of (setBacklightPin 7 NEGATIVE s))) in
  (0 = 0 -> forall b, In b (loads (trace_of (run_ops 0 1 2 ops s2))) -> Z.testbit b 7 = true)
  /\ (0 < 0 -> forall b, In b (loads (trace_of (run_ops 0 1 2 ops s2))) -> Z.testbit b 7 = false).
Proof.
  intros s ops.
  apply (backlight_negative_polarity 0 1 2 s 7 0 ops).
  - lia.
  - repeat split; repeat constructor.
  - reflexivity.
  - unfold is_u8. lia.
  - apply Forall_cons; [ right; left; reflexivity | ].
    apply Forall_cons; [ left; reflexivity | apply Forall_nil ].
Defined.

(** Levels 1 and 255. *)
Lemma setBacklight_zero_or_not_witness :
  let s := state_of (setBacklightPin 7 POSITIVE
                       (default_driver 0 0 4 (fun pin => pin) (fun pin => pin) 2 3 4)) in
  setBacklight 1 s = setBacklight 255 s.
Proof.
  intros s. apply (setBacklight_zero_or_not s 1 255).
  - unfold is_u8. lia.
  - unfold is_u8. lia.
  - split; discriminate.
Defined.

(** Backlight at bit 7, Enable at bit 4. *)
Lemma setBacklight_keeps_enable_low_witness :
  let s := state_of (setBacklightPin 7 POSITIVE
                       (default_driver 0 0 4 (fun pin => pin) (fun pin => pin) 2 3 4)) in
  Z.land 0x80 (_En s) = 0.
Proof.
  intros s. apply (setBacklight_keeps_enable_low s 1 0x80).
  - subst s. unfold is_u8. cbn. lia.
  - reflexivity.
  - left. reflexivity.
Defined.

(** The FOUR_BITS tag handed to [write4bits] directly. *)
Lemma write4bits_mode_leaks_witness :
  exists hi lo,
    loads (trace_of (write4bits 1 3 2
             (default_driver 0 0 4 (fun pin => pin) (fun pin => pin) 2 3 4)))
    = [hi; lo]
    /\ Z.testbit hi 1 = true.
Proof.
  apply (write4bits_mode_leaks 1
           (default_driver 0 0 4 (fun pin => pin) (fun pin => pin) 2 3 4) 3 2 1).
  - discriminate.
  - lia.
  - reflexivity.
Defined.

(** The default positions handed to the custom-mapping constructor. *)
Lemma custom_driver_data_as_command_witness :
  let s := state_of (SR3W_new_pins 0 0 4 (fun pin => pin) (fun pin => pin)
                       2 3 4 4 5 6 0 1 2 3 blank) in
  loads (trace_of (send 0 1 2 0x41 1 s)) = loads (trace_of (send 0 1 2 0x41 0 s)).
Proof.
  apply (custom_driver_data_as_command 0 1 2 0 0 4 (fun pin => pin) (fun pin => pin)
           blank 2 3 4 4 5 6 0 1 2 3 0x41).
  - reflexivity.
  - discriminate.
  - discriminate.
Defined.
